(** * Pomodoro task tracker: timer store, task store and statistics store

  A shallow embedding of the zustand stores of the application
  ([src/store/pomodoroStore.ts], [src/store/taskStore.ts], the statistics
  store and [src/services/taskService.ts]) together with the properties
  of the timer state machine, the task registry and the aggregator.

  Conventions of the embedding:
  - a JavaScript [number] holding a count or a number of seconds is a [Z];
    the result of a JavaScript division [/] is a rational [Q] (the exact
    quotient, of which the double is the nearest representable value),
    except in [calculatePercentage], whose rounding depends on the last bit
    of the double and which is computed on doubles;
  - [string | null], [x?: T] and [undefined] are [option];
  - [new Date().toISOString()] and [generateId()] are read from the
    environment: the actions take the timestamp [now] and the fresh
    identifier as arguments;
  - an action [set(...)] of a store is a function from the store state to
    the next store state. *)

From Stdlib Require Import ZArith QArith Qround List String Ascii Bool Lia.
From Stdlib Require Import DecimalString.
From Stdlib Require PrimFloat FloatOps Uint63.
Import ListNotations.

Local Open Scope string_scope.
Local Open Scope list_scope.
Local Open Scope Z_scope.

(* ================================================================= *)
(** ** JavaScript primitives used by the stores *)

Module JS.

(** [a % b] on integers: [NaN] (here [None]) when [b] is 0, otherwise the
    remainder of the truncating division, with the sign of [a]. *)
Definition rem (a b : Z) : option Z :=
  if b =? 0 then None else Some (Z.rem a b).

(** [x === 0] for a value that may be [NaN]. *)
Definition is_zero (x : option Z) : bool :=
  match x with
  | Some v => v =? 0
  | None => false
  end.

(** Truthiness of a possibly missing string: [undefined], [null] and the
    empty string are falsy. *)
Definition truthy (o : option string) : bool :=
  match o with
  | Some s => negb (String.eqb s EmptyString)
  | None => false
  end.

(** [a || b] on possibly missing strings. *)
Definition or_else (a b : option string) : option string :=
  if truthy a then a else b.

(** [s.startsWith(p)]. *)
Definition startsWith (s p : string) : bool := String.prefix p s.

(** [s.split('T')[0]]: the part of [s] before its first ['T']. *)
Fixpoint split_T_0 (s : string) : string :=
  match s with
  | EmptyString => EmptyString
  | String c rest =>
      if Ascii.eqb c "T"%char then EmptyString else String c (split_T_0 rest)
  end.

(** [a / b] on numbers with [b] not 0. *)
Definition div (a b : Q) : Q := (a / b)%Q.

(** [xs.reduce((sum, x) => sum + f(x), 0)]. *)
Definition reduce_sum {A : Type} (f : A -> Z) (xs : list A) : Z :=
  fold_left (fun sum x => sum + f x) xs 0.

(** [Math.round]: the nearest integer, halves rounded up. *)
Definition round (q : Q) : Z := Qfloor (q + (1 # 2))%Q.

(** The double that an integer is as a JavaScript [number] (exact below
    [2^53] in absolute value). *)
Definition number (z : Z) : PrimFloat.float :=
  if z <? 0
  then PrimFloat.opp (PrimFloat.of_uint63 (Uint63.of_Z (- z)))
  else PrimFloat.of_uint63 (Uint63.of_Z z).

(** [Math.round(x)] on a double: the integer nearest to the exact value of
    [x], [m * 2^e], halves rounded up; [NaN] and the infinities, which are not
    integers, give [None]. *)
Definition Math_round (x : PrimFloat.float) : option Z :=
  match FloatOps.Prim2SF x with
  | SpecFloat.S754_zero _ => Some 0
  | SpecFloat.S754_finite negative m e =>
      let n := if negative then Z.neg m else Z.pos m in
      Some (if 0 <=? e then n * 2 ^ e
            else (2 * n + 2 ^ (- e)) / 2 ^ (- e + 1))
  | _ => None
  end.

(** [n.toString()] for an integer [n]. *)
Definition toString (n : Z) : string := NilZero.string_of_int (Z.to_int n).

Fixpoint repeated (c : ascii) (n : nat) : string :=
  match n with
  | O => EmptyString
  | S n' => String c (repeated c n')
  end.

(** [s.padStart(targetLength, c)] for a filler of the one character [c]. *)
Definition padStart (targetLength : nat) (c : ascii) (s : string) : string :=
  String.append (repeated c (targetLength - String.length s)) s.

End JS.

(* ================================================================= *)
(** ** [types/pomodoro.ts] *)

Module Pomodoro.

Inductive PomodoroType := focus | short_break | long_break.

Inductive PomodoroStatus := running | paused | completed | cancelled.

Record PomodoroSession := mkSession {
  id : string;
  taskId : string;
  startTime : string;
  endTime : option string;
  duration : Z;
  plannedDuration : Z;
  type : PomodoroType;
  status : PomodoroStatus;
  interruptions : Z;
  notes : option string
}.

Record PomodoroSettings := mkSettings {
  focusDuration : Z;
  shortBreakDuration : Z;
  longBreakDuration : Z;
  longBreakInterval : Z;
  autoStartBreaks : bool;
  autoStartPomodoros : bool;
  soundEnabled : bool;
  notificationEnabled : bool
}.

Record PomodoroTimer := mkTimer {
  currentSession : option PomodoroSession;
  remainingTime : Z;
  isRunning : bool;
  isPaused : bool;
  currentType : PomodoroType;
  completedPomodoros : Z;
  currentCycle : Z
}.

Definition type_eqb (a b : PomodoroType) : bool :=
  match a, b with
  | focus, focus | short_break, short_break | long_break, long_break => true
  | _, _ => false
  end.

Definition status_eqb (a b : PomodoroStatus) : bool :=
  match a, b with
  | running, running | paused, paused
  | completed, completed | cancelled, cancelled => true
  | _, _ => false
  end.

Record WeekDay := mkWeekDay {
  wd_date : string;
  wd_completedPomodoros : Z;
  wd_focusTime : Q
}.

Record PomodoroStats := mkStats {
  totalSessions : Z;
  completedSessions : Z;
  totalFocusTime : Q;
  averageSessionDuration : Q;
  longestStreak : Z;
  currentStreak : Z;
  dailyGoal : Z;
  weeklyStats : list WeekDay
}.

(** [Partial<PomodoroSettings>]: [None] is a key that the object does not
    carry. *)
Record PartialSettings := mkPartialSettings {
  p_focusDuration : option Z;
  p_shortBreakDuration : option Z;
  p_longBreakDuration : option Z;
  p_longBreakInterval : option Z;
  p_autoStartBreaks : option bool;
  p_autoStartPomodoros : option bool;
  p_soundEnabled : option bool;
  p_notificationEnabled : option bool
}.

End Pomodoro.

(* ================================================================= *)
(** ** [store/pomodoroStore.ts] *)

Module PomodoroStore.
Import Pomodoro.

Record PomodoroState := mkState {
  timer : PomodoroTimer;
  settings : PomodoroSettings;
  sessions : list PomodoroSession;
  currentTaskId : option string;
  loading : bool;
  error : option string
}.

Definition defaultSettings : PomodoroSettings :=
  {| focusDuration := 25;
     shortBreakDuration := 5;
     longBreakDuration := 15;
     longBreakInterval := 4;
     autoStartBreaks := false;
     autoStartPomodoros := false;
     soundEnabled := true;
     notificationEnabled := true |}.

Definition initialTimer : PomodoroTimer :=
  {| currentSession := None;
     remainingTime := 25 * 60;
     isRunning := false;
     isPaused := false;
     currentType := focus;
     completedPomodoros := 0;
     currentCycle := 1 |}.

Definition initialState : PomodoroState :=
  {| timer := initialTimer;
     settings := defaultSettings;
     sessions := [];
     currentTaskId := None;
     loading := false;
     error := None |}.

(** [set({ timer: t })] and [set({ sessions: l })]: the other fields of the
    store are kept. *)
Definition with_timer (t : PomodoroTimer) (st : PomodoroState) : PomodoroState :=
  {| timer := t; settings := settings st; sessions := sessions st;
     currentTaskId := currentTaskId st; loading := loading st;
     error := error st |}.

Definition with_sessions (l : list PomodoroSession) (st : PomodoroState)
  : PomodoroState :=
  {| timer := timer st; settings := settings st; sessions := l;
     currentTaskId := currentTaskId st; loading := loading st;
     error := error st |}.

(** The planned duration, in seconds, of a phase of type [ty]. *)
Definition phaseSeconds (cfg : PomodoroSettings) (ty : PomodoroType) : Z :=
  match ty with
  | focus => focusDuration cfg * 60
  | short_break => shortBreakDuration cfg * 60
  | long_break => longBreakDuration cfg * 60
  end.

(** [startTimer(taskId?)]. *)
Definition startTimer (newId now : string) (task : option string)
           (st : PomodoroState) : PomodoroState :=
  let t := timer st in
  if isRunning t then st
  else
    let newSession :=
      {| id := newId;
         taskId :=
           match JS.or_else (JS.or_else task (currentTaskId st))
                            (Some EmptyString) with
           | Some s => s
           | None => EmptyString
           end;
         startTime := now;
         endTime := None;
         duration := 0;
         plannedDuration := phaseSeconds (settings st) (currentType t);
         type := currentType t;
         status := running;
         interruptions := 0;
         notes := None |} in
    {| timer :=
         {| currentSession := Some newSession;
            remainingTime := remainingTime t;
            isRunning := true;
            isPaused := false;
            currentType := currentType t;
            completedPomodoros := completedPomodoros t;
            currentCycle := currentCycle t |};
       settings := settings st;
       sessions := sessions st ++ [newSession];
       currentTaskId := JS.or_else task (currentTaskId st);
       loading := loading st;
       error := None |}.

(** [pauseTimer()]. *)
Definition pauseTimer (st : PomodoroState) : PomodoroState :=
  let t := timer st in
  with_timer
    {| currentSession := currentSession t;
       remainingTime := remainingTime t;
       isRunning := false;
       isPaused := true;
       currentType := currentType t;
       completedPomodoros := completedPomodoros t;
       currentCycle := currentCycle t |} st.

(** [resumeTimer()]. *)
Definition resumeTimer (st : PomodoroState) : PomodoroState :=
  let t := timer st in
  if isPaused t then
    with_timer
      {| currentSession := currentSession t;
         remainingTime := remainingTime t;
         isRunning := true;
         isPaused := false;
         currentType := currentType t;
         completedPomodoros := completedPomodoros t;
         currentCycle := currentCycle t |} st
  else st.

(** The entry written by [stopTimer] over a ledger entry: cancelled, with
    the time elapsed in the phase. *)
Definition cancelEntry (now : string) (cur : PomodoroSession) (remaining : Z)
           (session : PomodoroSession) : PomodoroSession :=
  {| id := id session;
     taskId := taskId session;
     startTime := startTime session;
     endTime := Some now;
     duration := plannedDuration cur - remaining;
     plannedDuration := plannedDuration session;
     type := type session;
     status := cancelled;
     interruptions := interruptions session;
     notes := notes session |}.

(** [stopTimer()]. *)
Definition stopTimer (now : string) (st : PomodoroState) : PomodoroState :=
  let t := timer st in
  match currentSession t with
  | Some cur =>
      let updatedSessions :=
        map (fun session =>
               if String.eqb (id session) (id cur)
               then cancelEntry now cur (remainingTime t) session
               else session)
            (sessions st) in
      with_sessions updatedSessions
        (with_timer
           {| currentSession := currentSession initialTimer;
              remainingTime := remainingTime initialTimer;
              isRunning := isRunning initialTimer;
              isPaused := isPaused initialTimer;
              currentType := currentType t;
              completedPomodoros := completedPomodoros t;
              currentCycle := currentCycle t |} st)
  | None => st
  end.

(** [resetTimer()]. *)
Definition resetTimer (st : PomodoroState) : PomodoroState :=
  with_timer
    {| currentSession := currentSession initialTimer;
       remainingTime := focusDuration (settings st) * 60;
       isRunning := isRunning initialTimer;
       isPaused := isPaused initialTimer;
       currentType := currentType initialTimer;
       completedPomodoros := completedPomodoros initialTimer;
       currentCycle := currentCycle initialTimer |} st.

(** The entry written by [completeSession] over a ledger entry. *)
Definition completeEntry (now : string) (session : PomodoroSession)
  : PomodoroSession :=
  {| id := id session;
     taskId := taskId session;
     startTime := startTime session;
     endTime := Some now;
     duration := plannedDuration session;
     plannedDuration := plannedDuration session;
     type := type session;
     status := completed;
     interruptions := interruptions session;
     notes := notes session |}.

(** [completeSession()]. *)
Definition completeSession (now : string) (st : PomodoroState) : PomodoroState :=
  let t := timer st in
  let cfg := settings st in
  match currentSession t with
  | None => st
  | Some cur =>
      let updatedSessions :=
        map (fun session =>
               if String.eqb (id session) (id cur)
               then completeEntry now session
               else session)
            (sessions st) in
      let '(nextType, nextDuration, completedPomodoros', currentCycle') :=
        match currentType t with
        | focus =>
            let completedPomodoros' := completedPomodoros t + 1 in
            if JS.is_zero (JS.rem completedPomodoros' (longBreakInterval cfg))
            then (long_break, longBreakDuration cfg * 60,
                  completedPomodoros', currentCycle t)
            else (short_break, shortBreakDuration cfg * 60,
                  completedPomodoros', currentCycle t)
        | _ =>
            (focus, focusDuration cfg * 60,
             completedPomodoros t, currentCycle t + 1)
        end in
      with_sessions updatedSessions
        (with_timer
           {| currentSession := None;
              remainingTime := nextDuration;
              isRunning := false;
              isPaused := false;
              currentType := nextType;
              completedPomodoros := completedPomodoros';
              currentCycle := currentCycle' |} st)
  end.

(** The actions of the store that [tick] reaches through [get()]. *)
Inductive Dispatch := CompleteSession.

(** [tick()], with the list of the store actions it invoked. *)
Definition tick_step (now : string) (st : PomodoroState)
  : PomodoroState * list Dispatch :=
  let t := timer st in
  if negb (isRunning t) || isPaused t then (st, [])
  else if 0 <? remainingTime t then
    (with_timer
       {| currentSession := currentSession t;
          remainingTime := remainingTime t - 1;
          isRunning := isRunning t;
          isPaused := isPaused t;
          currentType := currentType t;
          completedPomodoros := completedPomodoros t;
          currentCycle := currentCycle t |} st, [])
  else (completeSession now st, [CompleteSession]).

Definition tick (now : string) (st : PomodoroState) : PomodoroState :=
  fst (tick_step now st).

(** [n] successive calls of [tick], the [k]-th one at the time [clock k];
    the dispatches of all the calls are collected in order. *)
Fixpoint ticks (clock : nat -> string) (n : nat) (st : PomodoroState)
  : PomodoroState * list Dispatch :=
  match n with
  | O => (st, [])
  | S n' =>
      let '(st1, d1) := tick_step (clock O) st in
      let '(st2, d2) := ticks (fun k => clock (S k)) n' st1 in
      (st2, d1 ++ d2)
  end.

(** [cancelSession()]. *)
Definition cancelSession (now : string) (st : PomodoroState) : PomodoroState :=
  stopTimer now st.

(** [addInterruption()]. *)
Definition addInterruption (st : PomodoroState) : PomodoroState :=
  match currentSession (timer st) with
  | Some cur =>
      with_sessions
        (map (fun session =>
                if String.eqb (id session) (id cur)
                then {| id := id session;
                        taskId := taskId session;
                        startTime := startTime session;
                        endTime := endTime session;
                        duration := duration session;
                        plannedDuration := plannedDuration session;
                        type := type session;
                        status := status session;
                        interruptions := interruptions session + 1;
                        notes := notes session |}
                else session)
             (sessions st)) st
  | None => st
  end.

(** [clearAllSessions()]. *)
Definition clearAllSessions (st : PomodoroState) : PomodoroState :=
  with_sessions [] st.

(** [setCurrentTask(taskId)]. *)
Definition setCurrentTask (task : option string) (st : PomodoroState)
  : PomodoroState :=
  {| timer := timer st; settings := settings st; sessions := sessions st;
     currentTaskId := task; loading := loading st; error := error st |}.

Definition carried {A : Type} (o : option A) (d : A) : A :=
  match o with
  | Some v => v
  | None => d
  end.

(** [updateSettings(newSettings)]. *)
Definition updateSettings (newSettings : PartialSettings) (st : PomodoroState)
  : PomodoroState :=
  let cfg := settings st in
  {| timer := timer st;
     settings :=
       {| focusDuration := carried (p_focusDuration newSettings) (focusDuration cfg);
          shortBreakDuration :=
            carried (p_shortBreakDuration newSettings) (shortBreakDuration cfg);
          longBreakDuration :=
            carried (p_longBreakDuration newSettings) (longBreakDuration cfg);
          longBreakInterval :=
            carried (p_longBreakInterval newSettings) (longBreakInterval cfg);
          autoStartBreaks :=
            carried (p_autoStartBreaks newSettings) (autoStartBreaks cfg);
          autoStartPomodoros :=
            carried (p_autoStartPomodoros newSettings) (autoStartPomodoros cfg);
          soundEnabled := carried (p_soundEnabled newSettings) (soundEnabled cfg);
          notificationEnabled :=
            carried (p_notificationEnabled newSettings) (notificationEnabled cfg) |};
     sessions := sessions st;
     currentTaskId := currentTaskId st;
     loading := loading st;
     error := error st |}.

(** [resetSettings()]. *)
Definition resetSettings (st : PomodoroState) : PomodoroState :=
  {| timer := timer st; settings := defaultSettings; sessions := sessions st;
     currentTaskId := currentTaskId st; loading := loading st;
     error := error st |}.

Definition lengthZ {A : Type} (l : list A) : Z := Z.of_nat (List.length l).

Definition is_completed (s : PomodoroSession) : bool :=
  status_eqb (status s) completed.

Definition is_focus (s : PomodoroSession) : bool := type_eqb (type s) focus.

(** [getStats()]. *)
Definition getStats (st : PomodoroState) : PomodoroStats :=
  let completedSessions := filter is_completed (sessions st) in
  let focusSessions := filter is_focus completedSessions in
  {| totalSessions := lengthZ (sessions st);
     completedSessions := lengthZ completedSessions;
     totalFocusTime :=
       JS.div (inject_Z (JS.reduce_sum duration focusSessions)) 60;
     averageSessionDuration :=
       if 0 <? lengthZ completedSessions
       then JS.div (JS.div (inject_Z (JS.reduce_sum duration completedSessions))
                           (inject_Z (lengthZ completedSessions))) 60
       else 0%Q;
     longestStreak := 0;
     currentStreak := 0;
     dailyGoal := 8;
     weeklyStats := [] |}.

(** [getTodayStats()], called at the instant [now]. *)
Definition getTodayStats (now : string) (st : PomodoroState) : PomodoroStats :=
  let today := JS.split_T_0 now in
  let todaySessions :=
    filter (fun session => JS.startsWith (startTime session) today)
           (sessions st) in
  let completedSessions := filter is_completed todaySessions in
  let focusSessions := filter is_focus completedSessions in
  {| totalSessions := lengthZ todaySessions;
     completedSessions := lengthZ completedSessions;
     totalFocusTime :=
       JS.div (inject_Z (JS.reduce_sum duration focusSessions)) 60;
     averageSessionDuration := 0%Q;
     longestStreak := 0;
     currentStreak := 0;
     dailyGoal := 8;
     weeklyStats := [] |}.

(** [getSessionsByDate(date)]. *)
Definition getSessionsByDate (date : string) (st : PomodoroState)
  : list PomodoroSession :=
  filter (fun session => JS.startsWith (startTime session) date) (sessions st).

(** The actions of the store that write its state, and a run of a sequence
    of them. *)
Inductive Action :=
| DoStartTimer (newId now : string) (task : option string)
| DoPauseTimer
| DoResumeTimer
| DoStopTimer (now : string)
| DoResetTimer
| DoTick (now : string)
| DoCompleteSession (now : string)
| DoCancelSession (now : string)
| DoAddInterruption
| DoUpdateSettings (newSettings : PartialSettings)
| DoResetSettings
| DoClearAllSessions
| DoSetCurrentTask (task : option string).

Definition act (a : Action) (st : PomodoroState) : PomodoroState :=
  match a with
  | DoStartTimer newId now task => startTimer newId now task st
  | DoPauseTimer => pauseTimer st
  | DoResumeTimer => resumeTimer st
  | DoStopTimer now => stopTimer now st
  | DoResetTimer => resetTimer st
  | DoTick now => tick now st
  | DoCompleteSession now => completeSession now st
  | DoCancelSession now => cancelSession now st
  | DoAddInterruption => addInterruption st
  | DoUpdateSettings newSettings => updateSettings newSettings st
  | DoResetSettings => resetSettings st
  | DoClearAllSessions => clearAllSessions st
  | DoSetCurrentTask task => setCurrentTask task st
  end.

Definition perform (actions : list Action) (st : PomodoroState) : PomodoroState :=
  fold_left (fun s a => act a s) actions st.

(** What an entry of the ledger keeps for ever: who it is, for which task,
    when it started, its plan and its type. *)
Definition identity (s : PomodoroSession)
  : string * string * string * Z * PomodoroType :=
  (id s, taskId s, startTime s, plannedDuration s, type s).

(** The identities of the sessions that an action opens on [st]: one for a
    [startTimer(taskId?)] met while the timer is not running, with the
    identifier and the instant of the call, the task given or else the
    current task, and the plan that the settings give to the phase type;
    none for any other action. *)
Definition openedBy (a : Action) (st : PomodoroState)
  : list (string * string * string * Z * PomodoroType) :=
  match a with
  | DoStartTimer newId now task =>
      if isRunning (timer st) then []
      else [(newId,
             match JS.or_else (JS.or_else task (currentTaskId st))
                              (Some EmptyString) with
             | Some s => s
             | None => EmptyString
             end,
             now,
             phaseSeconds (settings st) (currentType (timer st)),
             currentType (timer st))]
  | _ => []
  end.

(** The identities of the sessions opened along a run of actions. *)
Fixpoint opened (actions : list Action) (st : PomodoroState)
  : list (string * string * string * Z * PomodoroType) :=
  match actions with
  | [] => []
  | a :: rest => openedBy a st ++ opened rest (act a st)
  end.

End PomodoroStore.

(* ================================================================= *)
(** ** [types/task.ts] *)

Module Task.

Inductive TaskStatus := todo | in_progress | completed | cancelled.

Inductive TaskCategory := work | study | life | other.

Inductive TaskPriority := low | medium | high | urgent.

Record Task := mkTask {
  id : string;
  title : string;
  description : option string;
  category : TaskCategory;
  status : TaskStatus;
  plannedTomatoes : Z;
  completedTomatoes : Z;
  estimatedMinutes : option Z;
  actualMinutes : option Z;
  createdAt : string;
  updatedAt : string;
  scheduledDate : string;
  completedAt : option string;
  priority : TaskPriority
}.

Record TaskFormData := mkFormData {
  form_title : string;
  form_description : option string;
  form_category : TaskCategory;
  form_plannedTomatoes : Z;
  form_scheduledDate : string;
  form_priority : TaskPriority
}.

(** [Partial<Task>]: [None] is a key that the object does not carry.  For
    the optional fields of [Task] a carried key may hold [undefined]. *)
Record PartialTask := mkPartial {
  p_id : option string;
  p_title : option string;
  p_description : option (option string);
  p_category : option TaskCategory;
  p_status : option TaskStatus;
  p_plannedTomatoes : option Z;
  p_completedTomatoes : option Z;
  p_estimatedMinutes : option (option Z);
  p_actualMinutes : option (option Z);
  p_createdAt : option string;
  p_updatedAt : option string;
  p_scheduledDate : option string;
  p_completedAt : option (option string);
  p_priority : option TaskPriority
}.

(** The object [{}]. *)
Definition noUpdates : PartialTask :=
  mkPartial None None None None None None None None None None None None
            None None.

Definition status_eqb (a b : TaskStatus) : bool :=
  match a, b with
  | todo, todo | in_progress, in_progress
  | completed, completed | cancelled, cancelled => true
  | _, _ => false
  end.

Definition category_eqb (a b : TaskCategory) : bool :=
  match a, b with
  | work, work | study, study | life, life | other, other => true
  | _, _ => false
  end.

(** The string that the category is at run time. *)
Definition category_name (c : TaskCategory) : string :=
  match c with
  | work => "work"
  | study => "study"
  | life => "life"
  | other => "other"
  end.

Record TaskStats := mkTaskStats {
  totalTasks : Z;
  completedTasks : Z;
  inProgressTasks : Z;
  todoTasks : Z;
  totalPlannedTomatoes : Z;
  totalCompletedTomatoes : Z;
  completionRate : Q;
  averageTomatoesPerTask : Q
}.

End Task.

(* ================================================================= *)
(** ** [store/taskStore.ts] *)

Module TaskStore.
Import Task.

(** The state of the store.  Its field [filter], which only the actions
    [setFilter] and [clearFilter] write and no action on the tasks reads, is
    left out. *)
Record TaskState := mkState {
  tasks : list Task;
  loading : bool;
  error : option string
}.

Definition initialState : TaskState :=
  {| tasks := []; loading := false; error := None |}.

(** [set(state => ({ tasks: f(state.tasks), error: null }))]. *)
Definition set_tasks (f : list Task -> list Task) (st : TaskState) : TaskState :=
  {| tasks := f (tasks st); loading := loading st; error := None |}.

Definition or_default {A : Type} (o : option A) (d : A) : A :=
  match o with
  | Some v => v
  | None => d
  end.

(** [{ ...task, ...updates }]. *)
Definition spread (task : Task) (updates : PartialTask) : Task :=
  {| id := or_default (p_id updates) (id task);
     title := or_default (p_title updates) (title task);
     description := or_default (p_description updates) (description task);
     category := or_default (p_category updates) (category task);
     status := or_default (p_status updates) (status task);
     plannedTomatoes :=
       or_default (p_plannedTomatoes updates) (plannedTomatoes task);
     completedTomatoes :=
       or_default (p_completedTomatoes updates) (completedTomatoes task);
     estimatedMinutes :=
       or_default (p_estimatedMinutes updates) (estimatedMinutes task);
     actualMinutes :=
       or_default (p_actualMinutes updates) (actualMinutes task);
     createdAt := or_default (p_createdAt updates) (createdAt task);
     updatedAt := or_default (p_updatedAt updates) (updatedAt task);
     scheduledDate := or_default (p_scheduledDate updates) (scheduledDate task);
     completedAt := or_default (p_completedAt updates) (completedAt task);
     priority := or_default (p_priority updates) (priority task) |}.

Definition touch (now : string) (task : Task) : Task :=
  {| id := id task; title := title task; description := description task;
     category := category task; status := status task;
     plannedTomatoes := plannedTomatoes task;
     completedTomatoes := completedTomatoes task;
     estimatedMinutes := estimatedMinutes task;
     actualMinutes := actualMinutes task;
     createdAt := createdAt task; updatedAt := now;
     scheduledDate := scheduledDate task;
     completedAt := completedAt task; priority := priority task |}.

Definition with_completedTomatoes (n : Z) (now : string) (task : Task) : Task :=
  {| id := id task; title := title task; description := description task;
     category := category task; status := status task;
     plannedTomatoes := plannedTomatoes task;
     completedTomatoes := n;
     estimatedMinutes := estimatedMinutes task;
     actualMinutes := actualMinutes task;
     createdAt := createdAt task; updatedAt := now;
     scheduledDate := scheduledDate task;
     completedAt := completedAt task; priority := priority task |}.

(** [addTask(taskData)].  The two timestamps of the new task are read at
    the same instant [now]. *)
Definition newTask (newId now : string) (taskData : TaskFormData) : Task :=
  {| id := newId;
     title := form_title taskData;
     description := form_description taskData;
     category := form_category taskData;
     status := todo;
     plannedTomatoes := form_plannedTomatoes taskData;
     completedTomatoes := 0;
     estimatedMinutes := None;
     actualMinutes := None;
     createdAt := now;
     updatedAt := now;
     scheduledDate := form_scheduledDate taskData;
     completedAt := None;
     priority := form_priority taskData |}.

Definition addTask (newId now : string) (taskData : TaskFormData)
           (st : TaskState) : TaskState :=
  set_tasks (fun l => l ++ [newTask newId now taskData]) st.

(** [updateTask(id, updates)]. *)
Definition updateTask (i : string) (updates : PartialTask) (now : string)
           (st : TaskState) : TaskState :=
  set_tasks
    (map (fun task =>
            if String.eqb (id task) i
            then touch now (spread task updates)
            else task)) st.

(** [deleteTask(id)]. *)
Definition deleteTask (i : string) (st : TaskState) : TaskState :=
  set_tasks (filter (fun task => negb (String.eqb (id task) i))) st.

Definition nextStatus (s : TaskStatus) : TaskStatus :=
  match s with
  | todo => in_progress
  | in_progress => completed
  | completed => todo
  | _ => todo
  end.

Definition toggled (now : string) (task : Task) : Task :=
  let newStatus := nextStatus (status task) in
  {| id := id task; title := title task; description := description task;
     category := category task;
     status := newStatus;
     plannedTomatoes := plannedTomatoes task;
     completedTomatoes := completedTomatoes task;
     estimatedMinutes := estimatedMinutes task;
     actualMinutes := actualMinutes task;
     createdAt := createdAt task;
     updatedAt := now;
     scheduledDate := scheduledDate task;
     completedAt := if status_eqb newStatus completed then Some now else None;
     priority := priority task |}.

(** [toggleTaskStatus(id)]. *)
Definition toggleTaskStatus (i : string) (now : string) (st : TaskState)
  : TaskState :=
  set_tasks
    (map (fun task => if String.eqb (id task) i then toggled now task else task))
    st.

(** [incrementTomato(id)]. *)
Definition incrementTomato (i : string) (now : string) (st : TaskState)
  : TaskState :=
  set_tasks
    (map (fun task =>
            if String.eqb (id task) i
            then with_completedTomatoes (completedTomatoes task + 1) now task
            else task)) st.

(** [decrementTomato(id)]. *)
Definition decrementTomato (i : string) (now : string) (st : TaskState)
  : TaskState :=
  set_tasks
    (map (fun task =>
            if String.eqb (id task) i && (0 <? completedTomatoes task)
            then with_completedTomatoes (completedTomatoes task - 1) now task
            else task)) st.

(** [clearAllTasks()] and [importTasks(tasks)]. *)
Definition clearAllTasks (st : TaskState) : TaskState :=
  set_tasks (fun _ => []) st.

Definition importTasks (l : list Task) (st : TaskState) : TaskState :=
  set_tasks (fun _ => l) st.

(** The mutating actions of the registry, and a run of a sequence of them. *)
Inductive Op :=
| AddTask (newId now : string) (taskData : TaskFormData)
| UpdateTask (i : string) (updates : PartialTask) (now : string)
| DeleteTask (i : string)
| ToggleTaskStatus (i now : string)
| IncrementTomato (i now : string)
| DecrementTomato (i now : string)
| ClearAllTasks
| ImportTasks (l : list Task).

Definition step (op : Op) (st : TaskState) : TaskState :=
  match op with
  | AddTask newId now taskData => addTask newId now taskData st
  | UpdateTask i updates now => updateTask i updates now st
  | DeleteTask i => deleteTask i st
  | ToggleTaskStatus i now => toggleTaskStatus i now st
  | IncrementTomato i now => incrementTomato i now st
  | DecrementTomato i now => decrementTomato i now st
  | ClearAllTasks => clearAllTasks st
  | ImportTasks l => importTasks l st
  end.

Definition run (ops : list Op) (st : TaskState) : TaskState :=
  fold_left (fun s op => step op s) ops st.

(** An identifier that no task of the registry bears. *)
Definition absent (i : string) (st : TaskState) : Prop :=
  forall task, In task (tasks st) -> String.eqb (id task) i = false.

(** The invariant of the tomato counters. *)
Definition counters_nonneg (st : TaskState) : Prop :=
  Forall (fun task => 0 <= completedTomatoes task) (tasks st).


(** [getTasksByDate(date)], [getTasksByStatus(status)] and
    [getTasksByCategory(category)]. *)
Definition getTasksByDate (date : string) (st : TaskState) : list Task :=
  filter (fun task => String.eqb (scheduledDate task) date) (tasks st).

Definition getTasksByStatus (s : TaskStatus) (st : TaskState) : list Task :=
  filter (fun task => status_eqb (status task) s) (tasks st).

Definition getTasksByCategory (c : TaskCategory) (st : TaskState) : list Task :=
  filter (fun task => category_eqb (category task) c) (tasks st).

Definition count {A : Type} (f : A -> bool) (l : list A) : Z :=
  Z.of_nat (List.length (filter f l)).

(** The statistics that [getTaskStats] and [getTodayStats] compute on a
    list of tasks. *)
Definition statsOf (l : list Task) : TaskStats :=
  let total := Z.of_nat (List.length l) in
  let completedTasks := count (fun task => status_eqb (status task) completed) l in
  let planned := JS.reduce_sum plannedTomatoes l in
  let done := JS.reduce_sum completedTomatoes l in
  {| totalTasks := total;
     completedTasks := completedTasks;
     inProgressTasks := count (fun task => status_eqb (status task) in_progress) l;
     todoTasks := count (fun task => status_eqb (status task) todo) l;
     totalPlannedTomatoes := planned;
     totalCompletedTomatoes := done;
     completionRate :=
       if 0 <? total
       then (JS.div (inject_Z completedTasks) (inject_Z total) * 100)%Q
       else 0%Q;
     averageTomatoesPerTask :=
       if 0 <? total then JS.div (inject_Z done) (inject_Z total) else 0%Q |}.

(** [getTaskStats()]. *)
Definition getTaskStats (st : TaskState) : TaskStats := statsOf (tasks st).

(** [getTodayStats()], where [today] is [formatDate(new Date())]. *)
Definition getTodayStats (today : string) (st : TaskState) : TaskStats :=
  statsOf (filter (fun task => String.eqb (scheduledDate task) today) (tasks st)).

(** [exportTasks()]. *)
Definition exportTasks (st : TaskState) : list Task := tasks st.

End TaskStore.

(* ================================================================= *)
(** ** [types/stats.ts] and the statistics store *)

Module StatsStore.

Record CategoryStats := mkCategoryStats {
  category : Task.TaskCategory;
  taskCount : Z;
  tomatoCount : Z;
  focusTime : Q;
  completionRate : Q
}.

Record DailyStats := mkDailyStats {
  date : string;
  completedTasks : Z;
  completedTomatoes : Z;
  dailyFocusTime : Q;
  categories : list CategoryStats
}.

Record OverallStats := mkOverallStats {
  totalDays : Z;
  totalTasks : Z;
  totalTomatoes : Z;
  totalFocusTime : Q;
  averageDailyTomatoes : Q;
  longestStreak : Z;
  currentStreak : Z;
  mostProductiveDay : string;
  favoriteCategory : string;
  overallCompletionRate : Q
}.

Definition len {A : Type} (l : list A) : Z := Z.of_nat (List.length l).

Definition task_completed (task : Task.Task) : bool :=
  Task.status_eqb (Task.status task) Task.completed.

(** [session.status === 'completed' && session.type === 'focus']. *)
Definition completed_focus (session : Pomodoro.PomodoroSession) : bool :=
  Pomodoro.status_eqb (Pomodoro.status session) Pomodoro.completed
  && Pomodoro.type_eqb (Pomodoro.type session) Pomodoro.focus.

(** The sessions kept by [calculateDailyStats] for [date]. *)
Definition daySessionsOf (date : string)
           (sessions : list Pomodoro.PomodoroSession)
  : list Pomodoro.PomodoroSession :=
  filter (fun session =>
            JS.startsWith (Pomodoro.startTime session) date
            && completed_focus session) sessions.

(** [sessions.reduce((sum, session) => sum + session.duration, 0) / 60]. *)
Definition minutesOf (sessions : list Pomodoro.PomodoroSession) : Q :=
  JS.div (inject_Z (JS.reduce_sum Pomodoro.duration sessions)) 60.

(** One round of the first [forEach] of [calculateDailyStats] on the map of
    categories, kept in the order of insertion.  In this pass the field
    [completionRate] counts the completed tasks of the category. *)
Definition count_task (task : Task.Task) (stats : CategoryStats) : CategoryStats :=
  {| category := category stats;
     taskCount := taskCount stats + 1;
     tomatoCount := tomatoCount stats + Task.completedTomatoes task;
     focusTime := focusTime stats;
     completionRate :=
       if task_completed task
       then (completionRate stats + 1)%Q
       else completionRate stats |}.

Fixpoint record_task (task : Task.Task) (m : list CategoryStats)
  : list CategoryStats :=
  match m with
  | [] =>
      [count_task task
         {| category := Task.category task; taskCount := 0; tomatoCount := 0;
            focusTime := 0%Q; completionRate := 0%Q |}]
  | stats :: rest =>
      if Task.category_eqb (category stats) (Task.category task)
      then count_task task stats :: rest
      else stats :: record_task task rest
  end.

(** The second [forEach]: the rate and the focus time of the category. *)
Definition finish_category (dayTasks : list Task.Task)
           (daySessions : list Pomodoro.PomodoroSession)
           (stats : CategoryStats) : CategoryStats :=
  let categorySessions :=
    filter (fun session =>
              match find (fun t => String.eqb (Task.id t)
                                              (Pomodoro.taskId session))
                         dayTasks with
              | Some task => Task.category_eqb (Task.category task)
                                               (category stats)
              | None => false
              end) daySessions in
  {| category := category stats;
     taskCount := taskCount stats;
     tomatoCount := tomatoCount stats;
     focusTime := minutesOf categorySessions;
     completionRate :=
       if 0 <? taskCount stats
       then (JS.div (completionRate stats) (inject_Z (taskCount stats)) * 100)%Q
       else 0%Q |}.

(** [calculateDailyStats(date, tasks, sessions)]. *)
Definition calculateDailyStats (d : string) (tasks : list Task.Task)
           (sessions : list Pomodoro.PomodoroSession) : DailyStats :=
  let dayTasks :=
    filter (fun task => String.eqb (Task.scheduledDate task) d) tasks in
  let daySessions := daySessionsOf d sessions in
  let categoryMap :=
    fold_left (fun m task => record_task task m) dayTasks [] in
  {| date := d;
     completedTasks := len (filter task_completed dayTasks);
     completedTomatoes := len daySessions;
     dailyFocusTime := minutesOf daySessions;
     categories := map (finish_category dayTasks daySessions) categoryMap |}.

(** [categoryCount.set(c, (categoryCount.get(c) || 0) + 1)] on a map kept in
    the order of insertion. *)
Fixpoint count_category (c : Task.TaskCategory)
         (m : list (Task.TaskCategory * Z)) : list (Task.TaskCategory * Z) :=
  match m with
  | [] => [(c, 0 + 1)]
  | (c', n) :: rest =>
      if Task.category_eqb c' c
      then (c', n + 1) :: rest
      else (c', n) :: count_category c rest
  end.

(** [calculateOverallStats(tasks, sessions)]. *)
Definition calculateOverallStats (tasks : list Task.Task)
           (sessions : list Pomodoro.PomodoroSession) : OverallStats :=
  let completedSessions := filter completed_focus sessions in
  let completedTasks := filter task_completed tasks in
  let total := len tasks in
  let tomatoes := len completedSessions in
  let activeDays :=
    len (nodup string_dec
               (map (fun session => JS.split_T_0 (Pomodoro.startTime session))
                    completedSessions)) in
  let categoryCount :=
    fold_left (fun m task => count_category (Task.category task) m) tasks [] in
  let '(favorite, _) :=
    fold_left (fun '(favorite, maxCount) '(c, count) =>
                 if maxCount <? count
                 then (Task.category_name c, count)
                 else (favorite, maxCount))
              categoryCount (EmptyString, 0) in
  {| totalDays := activeDays;
     totalTasks := total;
     totalTomatoes := tomatoes;
     totalFocusTime := minutesOf completedSessions;
     averageDailyTomatoes :=
       if 0 <? activeDays
       then JS.div (inject_Z tomatoes) (inject_Z activeDays)
       else 0%Q;
     longestStreak := 0;
     currentStreak := 0;
     mostProductiveDay := EmptyString;
     favoriteCategory := favorite;
     overallCompletionRate :=
       if 0 <? total
       then (JS.div (inject_Z (len completedTasks)) (inject_Z total) * 100)%Q
       else 0%Q |}.

(** The part of the state of the store that the actions below read and
    write: the daily statistics and the overall statistics. *)
Record StatsState := mkStatsState {
  dailyStats : list DailyStats;
  overallStats : option OverallStats
}.

(** [updateDailyStats(stats)]. *)
Definition updateDailyStats (stats : DailyStats) (st : StatsState) : StatsState :=
  {| dailyStats :=
       filter (fun s => negb (String.eqb (date s) (date stats))) (dailyStats st)
       ++ [stats];
     overallStats := overallStats st |}.

(** [updateOverallStats(stats)] and [refreshStats(tasks, sessions)]. *)
Definition updateOverallStats (stats : OverallStats) (st : StatsState)
  : StatsState :=
  {| dailyStats := dailyStats st; overallStats := Some stats |}.

Definition refreshStats (tasks : list Task.Task)
           (sessions : list Pomodoro.PomodoroSession) (st : StatsState)
  : StatsState :=
  {| dailyStats := dailyStats st;
     overallStats := Some (calculateOverallStats tasks sessions) |}.

(** [getDailyStats(date)]. *)
Definition getDailyStats (d : string) (st : StatsState) : option DailyStats :=
  find (fun s => String.eqb (date s) d) (dailyStats st).

Inductive Period := week | month.

Record Dataset := mkDataset {
  label : string;
  data : list Z;
  backgroundColor : list string;
  borderColor : option string;
  borderWidth : option Z
}.

Record ChartData := mkChartData {
  labels : list string;
  datasets : list Dataset
}.

Definition daysOf (period : Period) : nat :=
  match period with
  | week => 7%nat
  | month => 30%nat
  end.

(** The values of [i] in [for (let i = days - 1; i >= 0; i--)]. *)
Definition countdown (days : nat) : list nat := rev (seq 0 days).

(** [getTrendChartData(period)].  The calendar of the run time gives, for
    the day [i] days before today, its date [dateOf i] in the ISO format and
    its label [labelOf i] in the locale of the chart. *)
Definition getTrendChartData (dateOf labelOf : nat -> string) (period : Period)
           (st : StatsState) : ChartData :=
  let offsets := countdown (daysOf period) in
  {| labels := map labelOf offsets;
     datasets :=
       [ {| label := "完成番茄数";
            data :=
              map (fun i =>
                     match find (fun s => String.eqb (date s) (dateOf i))
                                (dailyStats st) with
                     | Some dayStats => completedTomatoes dayStats
                     | None => 0
                     end) offsets;
            backgroundColor := ["rgba(74, 111, 165, 0.7)"];
            borderColor := Some "rgba(74, 111, 165, 1)";
            borderWidth := Some 2 |} ] |}.

(** [categoryMap.set(c, (categoryMap.get(c) || 0) + n)] on a map kept in the
    order of insertion. *)
Fixpoint add_tomatoes (c : Task.TaskCategory) (n : Z)
         (m : list (Task.TaskCategory * Z)) : list (Task.TaskCategory * Z) :=
  match m with
  | [] => [(c, 0 + n)]
  | (c', k) :: rest =>
      if Task.category_eqb c' c
      then (c', k + n) :: rest
      else (c', k) :: add_tomatoes c n rest
  end.

(** [getCategoryChartData(period)]. *)
Definition getCategoryChartData (dateOf : nat -> string) (period : Period)
           (st : StatsState) : ChartData :=
  let categoryMap :=
    fold_left
      (fun m i =>
         match find (fun s => String.eqb (date s) (dateOf i)) (dailyStats st) with
         | Some dayStats =>
             fold_left (fun m' cat => add_tomatoes (category cat) (tomatoCount cat) m')
                       (categories dayStats) m
         | None => m
         end)
      (countdown (daysOf period)) [] in
  {| labels := map (fun '(c, _) => Task.category_name c) categoryMap;
     datasets :=
       [ {| label := "番茄数分布";
            data := map snd categoryMap;
            backgroundColor :=
              ["rgba(74, 111, 165, 0.7)"; "rgba(107, 140, 188, 0.7)";
               "rgba(255, 107, 107, 0.7)"; "rgba(108, 117, 125, 0.7)"];
            borderColor := None;
            borderWidth := None |} ] |}.

End StatsStore.

(* ================================================================= *)
(** ** [services/taskService.ts] *)

Module TaskService.

(** The outcome of an [async] method: the promise resolves with a value and
    the new content of the storage key, or rejects with an [Error]. *)
Inductive Outcome (A : Type) :=
| Resolved (value : A) (stored : list Task.Task)
| Rejected (message : string).
Arguments Resolved {A} value stored.
Arguments Rejected {A} message.

(** [tasks.findIndex(task => task.id === id)], [None] for [-1]. *)
Fixpoint findIndex (i : string) (l : list Task.Task) : option nat :=
  match l with
  | [] => None
  | task :: rest =>
      if String.eqb (Task.id task) i then Some O
      else option_map S (findIndex i rest)
  end.

Fixpoint replace_at (n : nat) (v : Task.Task) (l : list Task.Task)
  : list Task.Task :=
  match l, n with
  | [], _ => []
  | _ :: rest, O => v :: rest
  | x :: rest, S n' => x :: replace_at n' v rest
  end.

(** The messages of the two [Error]s of [updateTask]: the task does not
    exist; the update failed. *)
Definition taskMissing : string := "任务不存在".
Definition updateFailed : string := "更新任务失败".

(** [TaskService.updateTask(taskData)] on the tasks [stored] under the
    storage key.  [i] is [taskData.id] and [updates] holds the other keys of
    the request that [Task] declares.  The [Error] thrown for a missing
    task ([taskMissing]) is caught by the [catch] of the method, which
    throws the [Error] of the update in its place. *)
Definition updateTask (i : string) (updates : Task.PartialTask) (now : string)
           (stored : list Task.Task) : Outcome Task.Task :=
  match findIndex i stored with
  | None => Rejected updateFailed
  | Some taskIndex =>
      match nth_error stored taskIndex with
      | None => Rejected updateFailed
      | Some old =>
          let merged := TaskStore.touch now (TaskStore.spread old updates) in
          let becomesCompleted :=
            match Task.p_status updates with
            | Some s => Task.status_eqb s Task.completed
            | None => false
            end in
          let updatedTask :=
            if becomesCompleted && negb (JS.truthy (Task.completedAt old))
            then TaskStore.spread merged
                   {| Task.p_id := None; Task.p_title := None;
                      Task.p_description := None; Task.p_category := None;
                      Task.p_status := None; Task.p_plannedTomatoes := None;
                      Task.p_completedTomatoes := None;
                      Task.p_estimatedMinutes := None;
                      Task.p_actualMinutes := None; Task.p_createdAt := None;
                      Task.p_updatedAt := None; Task.p_scheduledDate := None;
                      Task.p_completedAt := Some (Some now);
                      Task.p_priority := None |}
            else merged in
          Resolved updatedTask (replace_at taskIndex updatedTask stored)
      end
  end.

(** [TaskService.deleteTask(id)]. *)
Definition deleteTask (i : string) (stored : list Task.Task) : Outcome unit :=
  Resolved tt (filter (fun task => negb (String.eqb (Task.id task) i)) stored).

(** [TaskService.getTaskById(id)]: [None] is [null]. *)
Definition getTaskById (i : string) (stored : list Task.Task)
  : option Task.Task :=
  find (fun task => String.eqb (Task.id task) i) stored.

(** The task written by [batchUpdateTaskStatus] over a task that it is asked
    to update. *)
Definition withStatus (s : Task.TaskStatus) (now : string) (task : Task.Task)
  : Task.Task :=
  {| Task.id := Task.id task; Task.title := Task.title task;
     Task.description := Task.description task;
     Task.category := Task.category task;
     Task.status := s;
     Task.plannedTomatoes := Task.plannedTomatoes task;
     Task.completedTomatoes := Task.completedTomatoes task;
     Task.estimatedMinutes := Task.estimatedMinutes task;
     Task.actualMinutes := Task.actualMinutes task;
     Task.createdAt := Task.createdAt task;
     Task.updatedAt := now;
     Task.scheduledDate := Task.scheduledDate task;
     Task.completedAt :=
       if Task.status_eqb s Task.completed
          && negb (JS.truthy (Task.completedAt task))
       then Some now
       else Task.completedAt task;
     Task.priority := Task.priority task |}.

(** [TaskService.batchUpdateTaskStatus(ids, status)]. *)
Definition batchUpdateTaskStatus (ids : list string) (s : Task.TaskStatus)
           (now : string) (stored : list Task.Task) : Outcome unit :=
  Resolved tt
    (map (fun task =>
            if existsb (String.eqb (Task.id task)) ids
            then withStatus s now task
            else task) stored).

End TaskService.

(* ================================================================= *)
(** ** [utils/helpers.ts] *)

Module Helpers.

(** [calculatePercentage(completed, total)] on integers, computed on
    doubles as the code does: the quotient is rounded to a double, its
    product by 100 is rounded to a double, and [Math.round] takes the
    nearest integer of that double. *)
Definition calculatePercentage (completed total : Z) : option Z :=
  if total =? 0 then Some 0
  else JS.Math_round
         (PrimFloat.mul (PrimFloat.div (JS.number completed) (JS.number total))
                        (JS.number 100)).

(** The result [r] is a nearest integer of the percentage of [completed]
    in [total], and a percentage. *)
Definition nearest_percentage (completed total : Z) : bool :=
  match calculatePercentage completed total with
  | Some r =>
      (0 <=? r) && (r <=? 100)
      && ((2 * r - 1) * total <=? 200 * completed)
      && (200 * completed <=? (2 * r + 1) * total)
  | None => false
  end.

(** [formatDuration(seconds)] for a whole number of seconds. *)
Definition formatDuration (seconds : Z) : string :=
  let minutes := seconds / 60 in
  let remainingSeconds := Z.rem seconds 60 in
  String.append (JS.padStart 2 "0" (JS.toString minutes))
                (String ":" (JS.padStart 2 "0" (JS.toString remainingSeconds))).

(** The character of a decimal digit, and the two digits of a number below
    a hundred. *)
Definition digit (n : Z) : ascii := ascii_of_nat (48 + Z.to_nat n).

Definition twoDigits (n : Z) : string :=
  String (digit (n / 10)) (String (digit (n mod 10)) EmptyString).

End Helpers.

(* ================================================================= *)
(** ** Scenarios and properties under study *)

Module Scenario.
Import Pomodoro PomodoroStore.

(** The timer of [st] with [r] seconds left. *)
Definition with_remaining (r : Z) (st : PomodoroState) : PomodoroState :=
  let t := timer st in
  with_timer
    {| currentSession := currentSession t;
       remainingTime := r;
       isRunning := isRunning t;
       isPaused := isPaused t;
       currentType := currentType t;
       completedPomodoros := completedPomodoros t;
       currentCycle := currentCycle t |} st.

(** A clock that reads the same instant at every tick. *)
Definition frozen (now : string) : nat -> string := fun _ => now.

(** A timer that runs with no current session and no time left.  It is
    reached from the initial store by [pauseTimer], [resumeTimer] and the
    ticks of a whole focus phase. *)
Definition runningWithoutSession : PomodoroState :=
  with_remaining 0 (resumeTimer (pauseTimer initialState)).


(** What is asked of [stopTimer] on a store whose timer holds a current
    session: the timer is idle afterwards, the counters and the phase type
    are kept, and the current session is finalized, that is, the ledger
    holds it afterwards as cancelled with the time elapsed as duration. *)
Definition stop_contract (now : string) (st : PomodoroState) : Prop :=
  forall cur,
    currentSession (timer st) = Some cur ->
    let st' := stopTimer now st in
    (isRunning (timer st') = false
     /\ isPaused (timer st') = false
     /\ currentSession (timer st') = None)
    /\ (completedPomodoros (timer st') = completedPomodoros (timer st)
        /\ currentCycle (timer st') = currentCycle (timer st)
        /\ currentType (timer st') = currentType (timer st))
    /\ exists session',
         In session' (sessions st')
         /\ id session' = id cur
         /\ status session' = cancelled
         /\ duration session' = plannedDuration cur - remainingTime (timer st).

(** A session is started and the ledger is then cleared: the timer still
    holds the session, the ledger holds nothing. *)
Definition clearedWhileRunning : PomodoroState :=
  clearAllSessions (startTimer "s1" "2024-01-01T09:00:00.000Z" None initialState).

(** One phase run to its end: started for no task, then completed. *)
Definition phase (newId : string) (st : PomodoroState) : PomodoroState :=
  completeSession "t" (startTimer newId "t" None st).

(** The phase types that follow each of the phases named [ids], run in
    turn from [st]. *)
Fixpoint phases (ids : list string) (st : PomodoroState)
  : list (PomodoroType * Z) :=
  match ids with
  | [] => []
  | i :: rest =>
      let st' := phase i st in
      (currentType (timer st'), completedPomodoros (timer st'))
        :: phases rest st'
  end.

(** A focus phase started under settings that auto-start both kinds of
    phases. *)
Definition autoStartSettings : PomodoroSettings :=
  {| focusDuration := 25; shortBreakDuration := 5; longBreakDuration := 15;
     longBreakInterval := 4; autoStartBreaks := true;
     autoStartPomodoros := true; soundEnabled := true;
     notificationEnabled := true |}.

Definition autoStartFocus : PomodoroState :=
  startTimer "s1" "2024-01-01T09:00:00.000Z" None
    {| timer := initialTimer; settings := autoStartSettings; sessions := [];
       currentTaskId := None; loading := false; error := None |}.

End Scenario.

Module TaskScenario.
Import Task TaskStore.

Definition form (c : TaskCategory) : TaskFormData :=
  {| form_title := "write report"; form_description := None;
     form_category := c; form_plannedTomatoes := 2;
     form_scheduledDate := "2024-01-01"; form_priority := medium |}.

Definition t0 : string := "2024-01-01T08:00:00.000Z".

(** A registry that holds the single task ["t1"]. *)
Definition oneTask : TaskState := addTask "t1" t0 (form work) initialState.

(** The store after a call tells a failure: its task list and error are
    not those of a call that succeeded without changing a task. *)
Definition signals_failure (before after : TaskState) : Prop :=
  (tasks after, error after) <> (tasks before, None).

(** What is asked of the store for an identifier [i] that no task bears:
    updating and deleting [i] tell a failure. *)
Definition reports_missing (i : string) (st : TaskState) : Prop :=
  absent i st ->
  (forall updates now, signals_failure st (updateTask i updates now st))
  /\ signals_failure st (deleteTask i st).

(** A patch that carries only a negative [completedTomatoes]. *)
Definition negativePatch : PartialTask :=
  {| p_id := None; p_title := None; p_description := None;
     p_category := None; p_status := None; p_plannedTomatoes := None;
     p_completedTomatoes := Some (-1); p_estimatedMinutes := None;
     p_actualMinutes := None; p_createdAt := None; p_updatedAt := None;
     p_scheduledDate := None; p_completedAt := None; p_priority := None |}.

(** Eight tasks, of which the first alone is completed. *)
Definition eightTasks : list Task :=
  tasks
    (run [AddTask "a1" t0 (form work); AddTask "a2" t0 (form work);
          AddTask "a3" t0 (form study); AddTask "a4" t0 (form study);
          AddTask "a5" t0 (form life); AddTask "a6" t0 (form life);
          AddTask "a7" t0 (form other); AddTask "a8" t0 (form other);
          ToggleTaskStatus "a1" t0; ToggleTaskStatus "a1" t0]
         initialState).

End TaskScenario.

Module StatsScenario.
Import Pomodoro StatsStore.



(** A completed focus session of a minute and a half. *)
Definition ninetySeconds : PomodoroSession :=
  {| id := "s1"; taskId := ""; startTime := "2024-01-01T09:00:00.000Z";
     endTime := Some "2024-01-01T09:01:30.000Z"; duration := 90;
     plannedDuration := 90; type := focus; status := completed;
     interruptions := 0; notes := None |}.



End StatsScenario.

Module StatsMeasures.
Import StatsStore.

(** The tasks scheduled on the day [d]. *)
Definition dayTasksOf (d : string) (tasks : list Task.Task) : list Task.Task :=
  filter (fun task => String.eqb (Task.scheduledDate task) d) tasks.

(** The tasks of the category [c]. *)
Definition inCategory (c : Task.TaskCategory) (tasks : list Task.Task)
  : list Task.Task :=
  filter (fun task => Task.category_eqb (Task.category task) c) tasks.

(** The entry of the category [c] in a map of categories. *)
Definition lookup (c : Task.TaskCategory) (m : list CategoryStats)
  : option CategoryStats :=
  find (fun stats => Task.category_eqb (category stats) c) m.

(** The count of the category [c] in a map of counts, 0 when it has none. *)
Definition countOf (c : Task.TaskCategory) (m : list (Task.TaskCategory * Z))
  : Z :=
  match find (fun '(c', _) => Task.category_eqb c' c) m with
  | Some (_, n) => n
  | None => 0
  end.

(** The entry of [record_task] for a new category. *)
Definition blank (c : Task.TaskCategory) : CategoryStats :=
  {| category := c; taskCount := 0; tomatoCount := 0;
     focusTime := 0%Q; completionRate := 0%Q |}.

(** The sum of a list of numbers. *)
Definition total (l : list Z) : Z := fold_right Z.add 0 l.

End StatsMeasures.

(* ================================================================= *)
(** * Properties *)

(** ** The timer state machine *)

Section TimerFacts.
Import Pomodoro PomodoroStore Scenario.



Lemma tick_step_not_running (now : string) (st : PomodoroState) :
  isRunning (timer st) = false -> tick_step now st = (st, []).
Proof. intros H; unfold tick_step; rewrite H; reflexivity. Qed.



Lemma ticks_not_running (clock : nat -> string) (n : nat) (st : PomodoroState) :
  isRunning (timer st) = false -> ticks clock n st = (st, []).
Proof.
  revert clock; induction n as [|n IH]; intros clock H; simpl.
  - reflexivity.
  - rewrite (tick_step_not_running _ _ H), IH by exact H; reflexivity.
Qed.




Lemma completeSession_without_session (now : string) (st : PomodoroState) :
  currentSession (timer st) = None -> completeSession now st = st.
Proof. intros H; unfold completeSession; rewrite H; reflexivity. Qed.

End TimerFacts.

Section TimerProperties.
Import Pomodoro PomodoroStore Scenario.




Lemma runningWithoutSession_reached :
  runningWithoutSession
  = fst (ticks (frozen "t") 1500 (resumeTimer (pauseTimer initialState))).
Proof. vm_compute; reflexivity. Qed.

Lemma runningWithoutSession_stuck (now : string) :
  tick_step now runningWithoutSession
  = (runningWithoutSession, [CompleteSession]).
Proof. reflexivity. Qed.

Lemma is_zero_spec (x : option Z) : JS.is_zero x = true <-> x = Some 0.
Proof.
  destruct x as [v|]; simpl.
  - rewrite Z.eqb_eq; split; [intros ->; reflexivity | intros [=]; assumption].
  - split; discriminate.
Qed.

(** C2.  A phase completion (a [completeSession] with a current session)
    of a focus phase adds one to [completedPomodoros] and goes to the long
    break exactly when the new count modulo [longBreakInterval] is 0, and
    to the short break otherwise; a phase completion of a break goes to
    focus and adds one to [currentCycle].  With an interval of 4 the focus
    completion that brings the count to 4 goes to the long break, as the
    fourth focus phase run from the initial store does. *)
Theorem completeSession_routes_phase :
  forall (now : string) (st : PomodoroState) (cur : PomodoroSession),
    currentSession (timer st) = Some cur ->
    let st' := completeSession now st in
    (currentType (timer st) = focus ->
     completedPomodoros (timer st') = completedPomodoros (timer st) + 1
     /\ (currentType (timer st') = long_break <->
         JS.rem (completedPomodoros (timer st) + 1)
                (longBreakInterval (settings st)) = Some 0)
     /\ (currentType (timer st') = short_break <->
         JS.rem (completedPomodoros (timer st) + 1)
                (longBreakInterval (settings st)) <> Some 0))
    /\ (currentType (timer st) <> focus ->
        currentType (timer st') = focus
        /\ currentCycle (timer st') = currentCycle (timer st) + 1)
    /\ (currentType (timer st) = focus ->
        longBreakInterval (settings st) = 4 ->
        completedPomodoros (timer st) = 3 ->
        currentType (timer st') = long_break
        /\ completedPomodoros (timer st') = 4)
    /\ phases ["f1"; "b1"; "f2"; "b2"; "f3"; "b3"; "f4"]%string initialState
       = [(short_break, 1); (focus, 1); (short_break, 2); (focus, 2);
          (short_break, 3); (focus, 3); (long_break, 4)].
Proof.
  intros now st cur Hcur st'; subst st'; unfold completeSession.
  rewrite Hcur.
  split; [|split; [|split]].
  - intros Hty; rewrite Hty.
    destruct (JS.is_zero _) eqn:Hz; simpl.
    + apply is_zero_spec in Hz.
      repeat split; try reflexivity; try (intros; assumption);
        try discriminate.
      intros Hne; contradiction.
    + assert (Hne : JS.rem (completedPomodoros (timer st) + 1)
                           (longBreakInterval (settings st)) <> Some 0)
        by (intros Heq; apply is_zero_spec in Heq; congruence).
      repeat split; try reflexivity; try (intros; assumption);
        try discriminate.
      intros Heq; contradiction.
  - intros Hty.
    destruct (currentType (timer st)); [contradiction | |]; simpl; auto.
  - intros Hty Hint Hcount; rewrite Hty, Hint, Hcount; simpl; auto.
  - reflexivity.
Qed.

Lemma completeSession_routes_phase_witness :
  let st := with_timer
              {| currentSession := currentSession (timer autoStartFocus);
                 remainingTime := 0; isRunning := true; isPaused := false;
                 currentType := focus; completedPomodoros := 3;
                 currentCycle := 4 |} autoStartFocus in
  currentType (timer (completeSession "t" st)) = long_break
  /\ completedPomodoros (timer (completeSession "t" st)) = 4.
Proof.
  intros st.
  assert (Hcur : exists cur, currentSession (timer st) = Some cur)
    by (eexists; reflexivity).
  destruct Hcur as [cur Hcur].
  destruct (completeSession_routes_phase "t" st cur Hcur)
    as [_ [_ [Hfour _]]].
  exact (Hfour eq_refl eq_refl eq_refl).
Defined.

End TimerProperties.

Section TimerControl.
Import Pomodoro PomodoroStore Scenario.

Lemma completeSession_resets (now : string) (st : PomodoroState)
      (cur : PomodoroSession) :
  currentSession (timer st) = Some cur ->
  let st' := completeSession now st in
  remainingTime (timer st') = phaseSeconds (settings st) (currentType (timer st'))
  /\ currentSession (timer st') = None
  /\ isRunning (timer st') = false
  /\ isPaused (timer st') = false
  /\ settings st' = settings st.
Proof.
  intros Hcur st'; subst st'; unfold completeSession; rewrite Hcur.
  destruct (currentType (timer st)); try destruct (JS.is_zero _);
    simpl; auto.
Qed.

(** C3, evaluated on the store.  Under settings with [autoStartBreaks] and
    [autoStartPomodoros] both on, the completion of a focus phase resets the
    time to the five minutes of the short break and clears the current
    session, but leaves the break not running; and the completion of that
    break, once started, leaves the focus phase not running either. *)
Theorem completeSession_ignores_autoStart :
  let afterFocus := completeSession "2024-01-01T09:25:00.000Z" autoStartFocus in
  let afterBreak :=
    completeSession "2024-01-01T09:30:00.000Z"
      (startTimer "s2" "2024-01-01T09:25:00.000Z" None afterFocus) in
  autoStartBreaks (settings autoStartFocus) = true
  /\ autoStartPomodoros (settings autoStartFocus) = true
  /\ currentType (timer afterFocus) = short_break
  /\ remainingTime (timer afterFocus) = 5 * 60
  /\ currentSession (timer afterFocus) = None
  /\ isRunning (timer afterFocus) = false
  /\ currentType (timer afterBreak) = focus
  /\ remainingTime (timer afterBreak) = 25 * 60
  /\ currentSession (timer afterBreak) = None
  /\ isRunning (timer afterBreak) = false.
Proof. repeat split. Qed.

(** C4, amended.  With a current session, [stopTimer] leaves the timer idle
    (not running, not paused, no current session), keeps
    [completedPomodoros], [currentCycle] and the phase type, and rewrites the
    ledger entry by entry: an entry with the identifier of the current
    session becomes cancelled with duration [plannedDuration - remainingTime],
    every other entry is kept.  So the current session is finalized whenever
    the ledger holds an entry with its identifier; when the ledger holds
    none, as after [clearAllSessions], the ledger is left as it was. *)
Theorem stopTimer_cancels_current :
  forall (now : string) (st : PomodoroState) (cur : PomodoroSession),
    currentSession (timer st) = Some cur ->
    let st' := stopTimer now st in
    (isRunning (timer st') = false
     /\ isPaused (timer st') = false
     /\ currentSession (timer st') = None)
    /\ (completedPomodoros (timer st') = completedPomodoros (timer st)
        /\ currentCycle (timer st') = currentCycle (timer st)
        /\ currentType (timer st') = currentType (timer st))
    /\ (forall k session,
           nth_error (sessions st) k = Some session ->
           exists session',
             nth_error (sessions st') k = Some session'
             /\ id session' = id session
             /\ (id session = id cur ->
                 status session' = cancelled
                 /\ duration session'
                    = plannedDuration cur - remainingTime (timer st)
                 /\ endTime session' = Some now)
             /\ (id session <> id cur -> session' = session))
    /\ ((exists session, In session (sessions st) /\ id session = id cur) ->
        exists session',
          In session' (sessions st')
          /\ id session' = id cur
          /\ status session' = cancelled
          /\ duration session' = plannedDuration cur - remainingTime (timer st)
          /\ endTime session' = Some now)
    /\ ((forall session, In session (sessions st) -> id session <> id cur) ->
        sessions st' = sessions st).
Proof.
  intros now st cur Hcur st'; subst st'; unfold stopTimer; rewrite Hcur.
  cbn [timer sessions with_sessions with_timer isRunning isPaused
       currentSession completedPomodoros currentCycle currentType initialTimer].
  split; [repeat split|].
  split; [repeat split|].
  split; [|split].
  - intros k session Hk.
    rewrite nth_error_map, Hk; simpl.
    destruct (String.eqb_spec (id session) (id cur)) as [Heq|Hne].
    + eexists; split; [reflexivity|].
      repeat split; intros; try reflexivity; contradiction.
    + eexists; split; [reflexivity|].
      repeat split; intros; try reflexivity; contradiction.
  - intros [session [Hin Hid]].
    exists (cancelEntry now cur (remainingTime (timer st)) session).
    split; [|repeat split; exact Hid].
    apply in_map_iff; exists session; split; [|exact Hin].
    rewrite Hid, String.eqb_refl; reflexivity.
  - intros Hnone.
    rewrite <- (map_id (sessions st)) at 2.
    apply map_ext_in; intros session Hin.
    destruct (String.eqb_spec (id session) (id cur)) as [Heq|Hne];
      [exfalso; exact (Hnone session Hin Heq) | reflexivity].
Qed.

Lemma stopTimer_cancels_current_witness :
  let st := with_remaining 1200
              (startTimer "s1" "2024-01-01T09:00:00.000Z" None initialState) in
  let st' := stopTimer "2024-01-01T09:05:00.000Z" st in
  isRunning (timer st') = false
  /\ completedPomodoros (timer st') = completedPomodoros (timer st)
  /\ map (fun s => (status s, duration s)) (sessions st') = [(cancelled, 300)].
Proof.
  intros st st'.
  assert (Hcur : exists cur, currentSession (timer st) = Some cur)
    by (eexists; reflexivity).
  destruct Hcur as [cur Hcur].
  destruct (stopTimer_cancels_current "2024-01-01T09:05:00.000Z" st cur Hcur)
    as [[Hidle _] [[Hcount _] _]].
  split; [exact Hidle | split; [exact Hcount | reflexivity]].
Defined.

(** C4 as stated fails: when the ledger was cleared while a session was
    running, the timer still holds the session, and [stopTimer] finds no
    entry to finalize: the ledger stays empty. *)
Lemma stop_contract_fails_on_cleared_ledger :
  ~ stop_contract "2024-01-01T09:05:00.000Z" clearedWhileRunning.
Proof.
  intros H.
  destruct (H _ eq_refl) as [_ [_ [session' [Hin _]]]].
  exact Hin.
Qed.

Lemma clearedWhileRunning_holds_session :
  exists cur,
    currentSession (timer clearedWhileRunning) = Some cur
    /\ sessions clearedWhileRunning = []
    /\ sessions (stopTimer "2024-01-01T09:05:00.000Z" clearedWhileRunning) = [].
Proof. eexists; repeat split. Qed.

Lemma stopTimer_without_session (now : string) (st : PomodoroState) :
  currentSession (timer st) = None -> stopTimer now st = st.
Proof. intros H; unfold stopTimer; rewrite H; reflexivity. Qed.

Lemma pauseTimer_running (st : PomodoroState) :
  let st' := pauseTimer st in
  isRunning (timer st') = false
  /\ isPaused (timer st') = true
  /\ remainingTime (timer st') = remainingTime (timer st)
  /\ currentSession (timer st') = currentSession (timer st).
Proof. repeat split. Qed.

Lemma resumeTimer_not_paused (st : PomodoroState) :
  isPaused (timer st) = false -> resumeTimer st = st.
Proof. intros H; unfold resumeTimer; rewrite H; reflexivity. Qed.

Lemma startTimer_running (newId now : string) (task : option string)
      (st : PomodoroState) :
  isRunning (timer st) = true -> startTimer newId now task st = st.
Proof. intros H; unfold startTimer; rewrite H; reflexivity. Qed.

(** C5, evaluated on the store.  On the initial store, whose timer is idle
    with no session, [pauseTimer] changes the timer: it is paused afterwards.
    [resumeTimer] then sets it running with no session, and at the end of
    the countdown [tick] finds no phase to complete. *)
Theorem pauseTimer_changes_idle_timer :
  isRunning (timer initialState) = false
  /\ isPaused (timer initialState) = false
  /\ currentSession (timer initialState) = None
  /\ pauseTimer initialState <> initialState
  /\ isPaused (timer (pauseTimer initialState)) = true
  /\ isRunning (timer (resumeTimer (pauseTimer initialState))) = true
  /\ currentSession (timer (resumeTimer (pauseTimer initialState))) = None
  /\ resumeTimer initialState = initialState.
Proof. repeat split; discriminate. Qed.

End TimerControl.

(** ** The task registry *)

Section RegistryFacts.
Import Task TaskStore.



Lemma map_untouched {A : Type} (hit : A -> bool) (f : A -> A) (l : list A) :
  (forall x, In x l -> hit x = false) ->
  map (fun x => if hit x then f x else x) l = l.
Proof.
  induction l as [|x l IH]; intros H; simpl; [reflexivity|].
  rewrite (H x (or_introl eq_refl)), IH; [reflexivity|].
  intros y Hy; apply H; right; exact Hy.
Qed.

Lemma filter_untouched {A : Type} (hit : A -> bool) (l : list A) :
  (forall x, In x l -> hit x = false) ->
  filter (fun x => negb (hit x)) l = l.
Proof.
  induction l as [|x l IH]; intros H; simpl; [reflexivity|].
  rewrite (H x (or_introl eq_refl)); simpl; rewrite IH; [reflexivity|].
  intros y Hy; apply H; right; exact Hy.
Qed.

Lemma updateTask_absent (i : string) (updates : PartialTask) (now : string)
      (st : TaskState) :
  absent i st ->
  tasks (updateTask i updates now st) = tasks st
  /\ error (updateTask i updates now st) = None.
Proof.
  intros H; split; [|reflexivity].
  unfold updateTask, set_tasks; simpl.
  apply (map_untouched (fun task => String.eqb (id task) i)); exact H.
Qed.

Lemma deleteTask_absent (i : string) (st : TaskState) :
  absent i st ->
  tasks (deleteTask i st) = tasks st /\ error (deleteTask i st) = None.
Proof.
  intros H; split; [|reflexivity].
  unfold deleteTask, set_tasks; simpl.
  apply (filter_untouched (fun task => String.eqb (id task) i)); exact H.
Qed.

Lemma findIndex_absent (i : string) (l : list Task) :
  (forall task, In task l -> String.eqb (id task) i = false) ->
  TaskService.findIndex i l = None.
Proof.
  induction l as [|task l IH]; intros H; simpl; [reflexivity|].
  rewrite (H task (or_introl eq_refl)), IH; [reflexivity|].
  intros y Hy; apply H; right; exact Hy.
Qed.

Lemma service_updateTask_absent (i : string) (updates : PartialTask)
      (now : string) (stored : list Task) :
  (forall task, In task stored -> String.eqb (id task) i = false) ->
  TaskService.updateTask i updates now stored
  = TaskService.Rejected TaskService.updateFailed.
Proof.
  intros H; unfold TaskService.updateTask.
  rewrite findIndex_absent by exact H; reflexivity.
Qed.

Lemma service_deleteTask_absent (i : string) (stored : list Task) :
  (forall task, In task stored -> String.eqb (id task) i = false) ->
  TaskService.deleteTask i stored = TaskService.Resolved tt stored.
Proof.
  intros H; unfold TaskService.deleteTask.
  rewrite (filter_untouched (fun task => String.eqb (id task) i)) by exact H.
  reflexivity.
Qed.

Lemma toggleTaskStatus_at (i now : string) (st : TaskState) (k : nat)
      (task : Task) :
  nth_error (tasks st) k = Some task ->
  id task = i ->
  nth_error (tasks (toggleTaskStatus i now st)) k = Some (toggled now task).
Proof.
  intros Hk Hid; unfold toggleTaskStatus, set_tasks; simpl.
  rewrite nth_error_map, Hk; simpl.
  rewrite Hid, String.eqb_refl; reflexivity.
Qed.



End RegistryFacts.

Section RegistryProperties.
Import Task TaskStore TaskScenario.

(** C6, amended.  For an identifier that no task bears, [updateTask] of the
    task service reports a failure: its promise rejects.  [updateTask] and
    [deleteTask] of the store and [deleteTask] of the service are silent:
    the task list is left as it was, the error of the store is [null] as
    after a call that succeeded, and the promise of the service resolves. *)
Theorem missing_id_update_delete :
  forall (i : string) (st : TaskState),
    absent i st ->
    (forall updates now,
        TaskService.updateTask i updates now (tasks st)
        = TaskService.Rejected TaskService.updateFailed)
    /\ (forall updates now,
           tasks (updateTask i updates now st) = tasks st
           /\ error (updateTask i updates now st) = None)
    /\ (tasks (deleteTask i st) = tasks st
        /\ error (deleteTask i st) = None)
    /\ TaskService.deleteTask i (tasks st) = TaskService.Resolved tt (tasks st).
Proof.
  intros i st Habs; split; [|split; [|split]].
  - intros updates now; apply service_updateTask_absent; exact Habs.
  - intros updates now; apply updateTask_absent; exact Habs.
  - apply deleteTask_absent; exact Habs.
  - apply service_deleteTask_absent; exact Habs.
Qed.

Lemma oneTask_without_t2 : absent "t2" oneTask.
Proof. intros task [<-|[]]; reflexivity. Qed.

Lemma missing_id_update_delete_witness :
  absent "t2" oneTask
  /\ TaskService.updateTask "t2" noUpdates t0 (tasks oneTask)
     = TaskService.Rejected TaskService.updateFailed
  /\ updateTask "t2" noUpdates t0 oneTask = oneTask
  /\ deleteTask "t2" oneTask = oneTask.
Proof.
  split; [exact oneTask_without_t2|].
  split; [|split; reflexivity].
  exact (proj1 (missing_id_update_delete "t2" oneTask oneTask_without_t2)
               noUpdates t0).
Defined.

(** C6 as stated fails: in a registry that holds the task ["t1"] alone,
    updating and deleting ["t2"] in the store give back the state of a call
    that succeeded, list unchanged and error at [null]. *)
Lemma missing_id_not_reported : ~ reports_missing "t2" oneTask.
Proof.
  intros H; destruct (H oneTask_without_t2) as [_ Hdel].
  apply Hdel; reflexivity.
Qed.

(** C9.  For a task of the registry with status [todo], three
    [toggleTaskStatus] on its identifier bring it back to [todo] through
    [in_progress] and [completed]; [completedAt] is unset after the first,
    set to the instant of the call by the second, and unset again after the
    third. *)
Theorem toggleTaskStatus_three_times :
  forall (i n1 n2 n3 : string) (st : TaskState) (k : nat) (task : Task),
    nth_error (tasks st) k = Some task ->
    id task = i ->
    status task = todo ->
    let st1 := toggleTaskStatus i n1 st in
    let st2 := toggleTaskStatus i n2 st1 in
    let st3 := toggleTaskStatus i n3 st2 in
    (exists task1,
        nth_error (tasks st1) k = Some task1
        /\ status task1 = in_progress /\ completedAt task1 = None)
    /\ (exists task2,
           nth_error (tasks st2) k = Some task2
           /\ status task2 = completed /\ completedAt task2 = Some n2)
    /\ (exists task3,
           nth_error (tasks st3) k = Some task3
           /\ status task3 = todo /\ completedAt task3 = None
           /\ id task3 = i).
Proof.
  intros i n1 n2 n3 st k task Hk Hid Hst st1 st2 st3.
  assert (H1 : nth_error (tasks st1) k = Some (toggled n1 task))
    by (apply toggleTaskStatus_at; assumption).
  assert (H2 : nth_error (tasks st2) k = Some (toggled n2 (toggled n1 task)))
    by (apply toggleTaskStatus_at; assumption).
  assert (H3 : nth_error (tasks st3) k
               = Some (toggled n3 (toggled n2 (toggled n1 task))))
    by (apply toggleTaskStatus_at; assumption).
  split; [|split].
  - eexists; split; [exact H1|]; simpl; rewrite Hst; split; reflexivity.
  - eexists; split; [exact H2|]; simpl; rewrite Hst; split; reflexivity.
  - eexists; split; [exact H3|]; simpl; rewrite Hst; repeat split; assumption.
Qed.

Lemma toggleTaskStatus_three_times_witness :
  let st3 := toggleTaskStatus "t1" "n3"
               (toggleTaskStatus "t1" "n2"
                  (toggleTaskStatus "t1" "n1" oneTask)) in
  exists task3,
    nth_error (tasks st3) 0 = Some task3
    /\ status task3 = todo /\ completedAt task3 = None /\ id task3 = "t1".
Proof.
  intros st3.
  exact (proj2 (proj2 (toggleTaskStatus_three_times
                         "t1" "n1" "n2" "n3" oneTask 0
                         (newTask "t1" t0 (form work))
                         eq_refl eq_refl eq_refl))).
Defined.




End RegistryProperties.

(** ** The statistics aggregator *)

Section AggregatorFacts.
Import Pomodoro StatsStore StatsScenario.

Lemma fold_left_sum_from {A : Type} (f : A -> Z) (xs : list A) (a : Z) :
  fold_left (fun sum x => sum + f x) xs a
  = a + fold_left (fun sum x => sum + f x) xs 0.
Proof.
  revert a; induction xs as [|x xs IH]; intros a; simpl.
  - lia.
  - rewrite (IH (a + f x)), (IH (f x)); lia.
Qed.




End AggregatorFacts.

Section AggregatorProperties.
Import Pomodoro StatsStore StatsScenario.



Lemma ninety_seconds_focus_time :
  (dailyFocusTime (calculateDailyStats "2024-01-01" [] [ninetySeconds])
   == 3 # 2)%Q.
Proof. vm_compute; reflexivity. Qed.



Lemma one_of_eight_rate :
  (overallCompletionRate (calculateOverallStats TaskScenario.eightTasks [])
   == 25 # 2)%Q
  /\ JS.round (25 # 2) = 13.
Proof. split; vm_compute; reflexivity. Qed.

End AggregatorProperties.

(** ** The timer store as a whole *)

Section TimerStore.
Import Pomodoro PomodoroStore Scenario.

Lemma act_keeps_flags_exclusive (a : Action) (st : PomodoroState) :
  isRunning (timer st) && isPaused (timer st) = false ->
  isRunning (timer (act a st)) && isPaused (timer (act a st)) = false.
Proof.
  intros H.
  destruct a; simpl; try exact H; try reflexivity.
  - unfold startTimer; destruct (isRunning (timer st)) eqn:Hr;
      [rewrite Hr; exact H | reflexivity].
  - unfold resumeTimer; destruct (isPaused (timer st)) eqn:Hp;
      [reflexivity | try rewrite Hp; apply andb_false_r].
  - unfold stopTimer; destruct (currentSession (timer st));
      [reflexivity | exact H].
  - unfold tick, tick_step; cbv zeta.
    destruct (isRunning (timer st)) eqn:Hr;
      destruct (isPaused (timer st)) eqn:Hp;
      try discriminate H; cbn [negb orb fst];
      try (rewrite ?Hr, ?Hp; reflexivity).
    destruct (0 <? remainingTime (timer st)); cbn [fst].
    + cbn; rewrite ?Hr, ?Hp; reflexivity.
    + unfold completeSession.
      destruct (currentSession (timer st));
        [|rewrite ?Hr, ?Hp; reflexivity].
      destruct (currentType (timer st)); try destruct (JS.is_zero _);
        reflexivity.
  - unfold completeSession.
    destruct (currentSession (timer st)); [|exact H].
    destruct (currentType (timer st)); try destruct (JS.is_zero _); reflexivity.
  - unfold cancelSession, stopTimer; destruct (currentSession (timer st));
      [reflexivity | exact H].
  - unfold addInterruption; destruct (currentSession (timer st)); exact H.
Qed.

(** X1.  The timer is never running and paused at once: every action of the
    store keeps the two flags exclusive, so they are exclusive after every
    sequence of actions from a store where they are, the initial one among
    them. *)
Theorem perform_keeps_flags_exclusive :
  forall (actions : list Action) (st : PomodoroState),
    isRunning (timer st) && isPaused (timer st) = false ->
    isRunning (timer (perform actions st))
    && isPaused (timer (perform actions st)) = false.
Proof.
  unfold perform; induction actions as [|a actions IH]; intros st H; simpl.
  - exact H.
  - apply IH, act_keeps_flags_exclusive, H.
Qed.

Lemma perform_keeps_flags_exclusive_witness :
  let actions := [DoPauseTimer; DoResumeTimer; DoTick "t1"; DoPauseTimer;
                  DoStartTimer "s1" "t2" None; DoPauseTimer; DoTick "t3"] in
  isPaused (timer (perform actions initialState)) = true
  /\ isRunning (timer (perform actions initialState))
     && isPaused (timer (perform actions initialState)) = false.
Proof.
  intros actions; split; [reflexivity|].
  apply (perform_keeps_flags_exclusive actions initialState); reflexivity.
Defined.

Lemma map_identity_same (f : PomodoroSession -> PomodoroSession)
      (l : list PomodoroSession) :
  (forall s, identity (f s) = identity s) ->
  map identity (map f l) = map identity l.
Proof.
  intros Hf; rewrite map_map; apply map_ext; exact Hf.
Qed.

Lemma completeSession_identities (now : string) (st : PomodoroState) :
  map identity (sessions (completeSession now st)) = map identity (sessions st).
Proof.
  unfold completeSession; destruct (currentSession (timer st)) as [cur|];
    [|reflexivity].
  destruct (currentType (timer st)); try destruct (JS.is_zero _); simpl;
    apply map_identity_same; intros s;
    destruct (String.eqb (id s) (id cur)); reflexivity.
Qed.

Lemma stopTimer_identities (now : string) (st : PomodoroState) :
  map identity (sessions (stopTimer now st)) = map identity (sessions st).
Proof.
  unfold stopTimer; destruct (currentSession (timer st)) as [cur|];
    [|reflexivity].
  simpl; apply map_identity_same; intros s.
  destruct (String.eqb (id s) (id cur)); reflexivity.
Qed.

Lemma tick_identities (now : string) (st : PomodoroState) :
  map identity (sessions (tick now st)) = map identity (sessions st).
Proof.
  unfold tick, tick_step; cbv zeta.
  destruct (negb (isRunning (timer st)) || isPaused (timer st));
    [reflexivity|].
  destruct (0 <? remainingTime (timer st)); [reflexivity|].
  apply completeSession_identities.
Qed.

Lemma addInterruption_identities (st : PomodoroState) :
  map identity (sessions (addInterruption st)) = map identity (sessions st).
Proof.
  unfold addInterruption; destruct (currentSession (timer st)) as [cur|];
    [|reflexivity].
  simpl; apply map_identity_same; intros s.
  destruct (String.eqb (id s) (id cur)); reflexivity.
Qed.

Lemma act_extends_ledger (a : Action) (st : PomodoroState) :
  a <> DoClearAllSessions ->
  map identity (sessions (act a st))
  = map identity (sessions st) ++ openedBy a st.
Proof.
  intros Ha.
  destruct a as [newId now task | | | now | | now | now | now | | p | | | task];
    cbn [act openedBy]; try contradiction;
    try (rewrite app_nil_r;
         first [ reflexivity
               | apply stopTimer_identities
               | apply completeSession_identities
               | apply tick_identities
               | apply addInterruption_identities ]; fail).
  - unfold startTimer; destruct (isRunning (timer st)).
    + rewrite app_nil_r; reflexivity.
    + cbn [sessions]; rewrite map_app; reflexivity.
  - rewrite app_nil_r.
    unfold resumeTimer; destruct (isPaused (timer st)); reflexivity.
Qed.

(** X2.  The ledger only grows at its end, unless it is cleared: after a
    sequence of actions without [clearAllSessions], the entries that the
    ledger held are still there, in place, with their identifier, task,
    start time, planned duration and type, and they are followed by exactly
    one entry for each [startTimer] that was called while the timer was not
    running, in the order of the calls, with the identifier, the task, the
    instant, and the plan and type of the phase of that call. *)
Theorem perform_extends_ledger :
  forall (actions : list Action) (st : PomodoroState),
    ~ In DoClearAllSessions actions ->
    map identity (sessions (perform actions st))
    = map identity (sessions st) ++ opened actions st.
Proof.
  unfold perform; induction actions as [|a actions IH]; intros st Hno;
    cbn [fold_left opened].
  - rewrite app_nil_r; reflexivity.
  - rewrite IH by (intros Hin; apply Hno; right; exact Hin).
    rewrite act_extends_ledger
      by (intros ->; apply Hno; left; reflexivity).
    rewrite app_assoc; reflexivity.
Qed.

Lemma perform_extends_ledger_witness :
  let st := addInterruption
              (startTimer "s1" "t1" (Some "report") initialState) in
  let actions := [DoTick "t2"; DoStartTimer "ignored" "t2" None;
                  DoStopTimer "t3"; DoStartTimer "s2" "t4" None;
                  DoAddInterruption; DoCompleteSession "t5";
                  DoStartTimer "s3" "t6" (Some "mail")] in
  map identity (sessions (perform actions st))
  = [("s1", "report", "t1", 1500, focus);
     ("s2", "report", "t4", 1500, focus);
     ("s3", "mail", "t6", 300, short_break)]
  /\ map status (sessions (perform actions st))
     = [cancelled; completed; running].
Proof.
  intros st actions; split; [|reflexivity].
  rewrite (perform_extends_ledger actions st); [reflexivity|].
  simpl; intros H; repeat (destruct H as [H|H]; [discriminate H|]); exact H.
Defined.

Lemma act_keeps_counters (a : Action) (st : PomodoroState) :
  a <> DoResetTimer ->
  completedPomodoros (timer st) <= completedPomodoros (timer (act a st))
  /\ currentCycle (timer st) <= currentCycle (timer (act a st)).
Proof.
  intros Ha.
  assert (Hc : forall now,
             completedPomodoros (timer st)
             <= completedPomodoros (timer (completeSession now st))
             /\ currentCycle (timer st)
                <= currentCycle (timer (completeSession now st))).
  { intros now; unfold completeSession.
    destruct (currentSession (timer st)); [|lia].
    destruct (currentType (timer st)); try destruct (JS.is_zero _);
      simpl; lia. }
  assert (Hs : forall now,
             completedPomodoros (timer st)
             <= completedPomodoros (timer (stopTimer now st))
             /\ currentCycle (timer st)
                <= currentCycle (timer (stopTimer now st))).
  { intros now; unfold stopTimer.
    destruct (currentSession (timer st)); simpl; lia. }
  destruct a as [newId now task | | | now | | now | now | now | | p | | | task];
    simpl; try contradiction; try lia; try apply Hc; try apply Hs.
  - unfold startTimer; destruct (isRunning (timer st)); simpl; lia.
  - unfold resumeTimer; destruct (isPaused (timer st)); simpl; lia.
  - unfold tick, tick_step; cbv zeta.
    destruct (negb (isRunning (timer st)) || isPaused (timer st)); simpl;
      [lia|].
    destruct (0 <? remainingTime (timer st)); simpl; [lia | apply Hc].
  - unfold addInterruption; destruct (currentSession (timer st)); simpl; lia.
Qed.

(** X3.  The counters of the timer never go down, unless the timer is reset:
    after a sequence of actions without [resetTimer], [completedPomodoros]
    and [currentCycle] are at least what they were. *)
Theorem perform_keeps_counters :
  forall (actions : list Action) (st : PomodoroState),
    ~ In DoResetTimer actions ->
    completedPomodoros (timer st)
    <= completedPomodoros (timer (perform actions st))
    /\ currentCycle (timer st) <= currentCycle (timer (perform actions st)).
Proof.
  unfold perform; induction actions as [|a actions IH]; intros st Hno; simpl.
  - lia.
  - destruct (act_keeps_counters a st) as [H1 H2].
    { intros ->; apply Hno; left; reflexivity. }
    destruct (IH (act a st)) as [H3 H4].
    { intros Hin; apply Hno; right; exact Hin. }
    lia.
Qed.

Lemma perform_keeps_counters_witness :
  let actions := [DoStartTimer "s1" "t1" None; DoCompleteSession "t2";
                  DoStartTimer "s2" "t3" None; DoStopTimer "t4"] in
  0 <= completedPomodoros (timer (perform actions initialState))
  /\ 1 <= currentCycle (timer (perform actions initialState)).
Proof.
  intros actions.
  apply (perform_keeps_counters actions initialState).
  simpl; intros H; repeat (destruct H as [H|H]; [discriminate H|]); exact H.
Defined.

End TimerStore.

Section TimerSessions.
Import Pomodoro PomodoroStore Scenario.

(** X4.  A session keeps the plan of its start.  When a timer that is not
    running starts a session under an identifier that the ledger does not
    hold, the settings are then changed, and the session is completed, the
    ledger is the former ledger followed by one entry: the session, completed,
    whose duration is the duration that the settings gave to the phase when
    it started.  The time of the next phase follows the new settings. *)
Theorem fresh_phase_recorded_as_planned :
  forall (newId now1 now2 : string) (task : option string)
         (newSettings : PartialSettings) (st : PomodoroState),
    isRunning (timer st) = false ->
    (forall s, In s (sessions st) -> String.eqb (id s) newId = false) ->
    let planned := phaseSeconds (settings st) (currentType (timer st)) in
    let st' := completeSession now2
                 (updateSettings newSettings (startTimer newId now1 task st)) in
    exists entry,
      sessions st' = sessions st ++ [entry]
      /\ id entry = newId
      /\ startTime entry = now1
      /\ endTime entry = Some now2
      /\ status entry = completed
      /\ type entry = currentType (timer st)
      /\ plannedDuration entry = planned
      /\ duration entry = planned
      /\ remainingTime (timer st')
         = phaseSeconds (settings st') (currentType (timer st')).
Proof.
  intros newId now1 now2 task newSettings st Hr Hfresh planned st'.
  subst st' planned; unfold startTimer; rewrite Hr.
  unfold updateSettings, completeSession.
  cbn [timer settings sessions currentSession currentType completedPomodoros
       currentCycle].
  set (fresh := {| id := newId; taskId := _; startTime := now1 |}).
  exists (completeEntry now2 fresh).
  assert (Hledger :
            map (fun session =>
                   if String.eqb (id session) (id fresh)
                   then completeEntry now2 session else session)
                (sessions st ++ [fresh])
            = sessions st ++ [completeEntry now2 fresh]).
  { rewrite map_app; simpl.
    rewrite String.eqb_refl.
    rewrite (map_untouched (fun s => String.eqb (id s) newId)
                           (completeEntry now2)) by exact Hfresh.
    reflexivity. }
  destruct (currentType (timer st)); try destruct (JS.is_zero _);
    cbn [sessions with_sessions with_timer timer settings remainingTime
         currentType phaseSeconds focusDuration shortBreakDuration
         longBreakDuration];
    (split; [exact Hledger | repeat split]).
Qed.

Lemma fresh_phase_recorded_as_planned_witness :
  let longer := {| p_focusDuration := Some 50; p_shortBreakDuration := Some 10;
                   p_longBreakDuration := None; p_longBreakInterval := None;
                   p_autoStartBreaks := None; p_autoStartPomodoros := None;
                   p_soundEnabled := None; p_notificationEnabled := None |} in
  let st' := completeSession "t2"
               (updateSettings longer (startTimer "s1" "t1" None initialState)) in
  exists entry,
    sessions st' = [entry]
    /\ duration entry = 1500
    /\ remainingTime (timer st') = 600.
Proof.
  intros longer st'.
  destruct (fresh_phase_recorded_as_planned
              "s1" "t1" "t2" None longer initialState eq_refl
              ltac:(intros s [])) as [entry H].
  exists entry.
  destruct H as [H1 [_ [_ [_ [_ [_ [_ [H2 H3]]]]]]]].
  split; [exact H1 | split; [exact H2 | exact H3]].
Defined.

(** X5.  Pausing freezes the timer and resuming gives it back: on a timer
    that runs unpaused, after [pauseTimer] any number of ticks changes
    nothing and dispatches nothing, and [resumeTimer] then restores the very
    store from before the pause, its remaining time included. *)
Theorem pause_ticks_resume_round_trip :
  forall (clock : nat -> string) (n : nat) (st : PomodoroState),
    isRunning (timer st) = true ->
    isPaused (timer st) = false ->
    ticks clock n (pauseTimer st) = (pauseTimer st, [])
    /\ resumeTimer (fst (ticks clock n (pauseTimer st))) = st.
Proof.
  intros clock n st Hr Hp.
  assert (Hticks : ticks clock n (pauseTimer st) = (pauseTimer st, []))
    by (apply ticks_not_running; reflexivity).
  split; [exact Hticks|].
  rewrite Hticks; simpl.
  destruct st as [[cur r run pau ty done cyc] cfg l task ld err];
    simpl in Hr, Hp; subst; reflexivity.
Qed.

Lemma pause_ticks_resume_round_trip_witness :
  let st := with_remaining 900 (startTimer "s1" "t1" None initialState) in
  resumeTimer (fst (ticks (frozen "t") 40 (pauseTimer st))) = st.
Proof.
  intros st.
  exact (proj2 (pause_ticks_resume_round_trip (frozen "t") 40 st
                                              eq_refl eq_refl)).
Defined.






(** X7.  Stopping and starting again begins a fresh session.  From a timer
    with a current session, [stopTimer] then [startTimer] leave the timer
    running a new current session of the same phase type, planned for the
    duration that the settings give to that type, with nothing elapsed and
    no interruption, and appended to the ledger; the counters are kept.  The
    remaining time of the timer is 25 minutes whatever the phase type and
    the settings are. *)
Theorem stop_then_start_begins_fresh_session :
  forall (now1 now2 newId : string) (task : option string)
         (st : PomodoroState) (cur : PomodoroSession),
    currentSession (timer st) = Some cur ->
    let st' := startTimer newId now2 task (stopTimer now1 st) in
    exists fresh,
      currentSession (timer st') = Some fresh
      /\ sessions st' = sessions (stopTimer now1 st) ++ [fresh]
      /\ id fresh = newId
      /\ status fresh = running
      /\ duration fresh = 0
      /\ interruptions fresh = 0
      /\ type fresh = currentType (timer st)
      /\ plannedDuration fresh
         = phaseSeconds (settings st) (currentType (timer st))
      /\ isRunning (timer st') = true
      /\ isPaused (timer st') = false
      /\ remainingTime (timer st') = 25 * 60
      /\ completedPomodoros (timer st') = completedPomodoros (timer st)
      /\ currentCycle (timer st') = currentCycle (timer st).
Proof.
  intros now1 now2 newId task st cur Hcur st'; subst st'.
  unfold stopTimer; rewrite Hcur.
  unfold startTimer; simpl.
  eexists; repeat split.
Qed.

Lemma stop_then_start_begins_fresh_session_witness :
  let st := completeSession "t1" (startTimer "s1" "t0" None initialState) in
  let st1 := startTimer "s2" "t2" None st in
  let st' := startTimer "s3" "t4" None (stopTimer "t3" st1) in
  exists fresh,
    currentSession (timer st') = Some fresh
    /\ plannedDuration fresh = 300
    /\ remainingTime (timer st') = 1500.
Proof.
  intros st st1 st'.
  assert (Hcur : exists cur, currentSession (timer st1) = Some cur)
    by (eexists; reflexivity).
  destruct Hcur as [cur Hcur].
  destruct (stop_then_start_begins_fresh_session
              "t3" "t4" "s3" None st1 cur Hcur) as [fresh H].
  exists fresh.
  destruct H as [H1 [_ [_ [_ [_ [_ [_ [H2 [_ [_ [H3 _]]]]]]]]]]].
  split; [exact H1 | split; [exact H2 | exact H3]].
Defined.

Lemma filter_filter_length {A : Type} (f g : A -> bool) (l : list A) :
  (List.length (filter f (filter g l)) <= List.length (filter f l))%nat.
Proof.
  induction l as [|x l IH]; simpl; [lia|].
  destruct (g x); simpl; destruct (f x); simpl; lia.
Qed.

(** X8.  The counts of the statistics are consistent: the completed sessions
    are at most the sessions, for the whole ledger and for today; today's
    sessions are the sessions that [getSessionsByDate] gives for the date of
    the instant of the call, and today's counts are at most the counts of
    the whole ledger. *)
Theorem session_counts_consistent :
  forall (now : string) (st : PomodoroState),
    0 <= completedSessions (getStats st) <= totalSessions (getStats st)
    /\ 0 <= completedSessions (getTodayStats now st)
       <= totalSessions (getTodayStats now st)
    /\ totalSessions (getTodayStats now st)
       = lengthZ (getSessionsByDate (JS.split_T_0 now) st)
    /\ totalSessions (getTodayStats now st) <= totalSessions (getStats st)
    /\ completedSessions (getTodayStats now st)
       <= completedSessions (getStats st).
Proof.
  intros now st; unfold getStats, getTodayStats, getSessionsByDate, lengthZ;
    cbn [totalSessions completedSessions].
  repeat split; try lia.
  - apply inj_le, filter_length_le.
  - apply inj_le, filter_length_le.
  - apply inj_le, filter_length_le.
  - apply inj_le, filter_filter_length.
Qed.

End TimerSessions.

(** ** The task registry as a whole *)

Section RegistryStore.
Import Task TaskStore TaskScenario.

(** X9.  Adding a task under an identifier that no task bears and deleting
    that identifier gives back the list of tasks. *)
Theorem addTask_then_deleteTask :
  forall (newId now : string) (taskData : TaskFormData) (st : TaskState),
    absent newId st ->
    tasks (deleteTask newId (addTask newId now taskData st)) = tasks st.
Proof.
  intros newId now taskData st Habs.
  unfold deleteTask, addTask, set_tasks; simpl.
  rewrite filter_app; simpl.
  rewrite String.eqb_refl; simpl.
  rewrite (filter_untouched (fun task => String.eqb (id task) newId))
    by exact Habs.
  apply app_nil_r.
Qed.

Lemma addTask_then_deleteTask_witness :
  tasks (deleteTask "t2" (addTask "t2" t0 (form study) oneTask)) = tasks oneTask.
Proof.
  apply (addTask_then_deleteTask "t2" t0 (form study) oneTask).
  intros task [<-|[]]; reflexivity.
Defined.

(** X10.  [deleteTask] removes every task that bears the identifier and no
    other: afterwards no task bears it, the tasks with another identifier
    are those of before in the same order, and deleting it again changes
    nothing. *)
Theorem deleteTask_removes_exactly :
  forall (i : string) (st : TaskState),
    absent i (deleteTask i st)
    /\ tasks (deleteTask i st)
       = filter (fun task => negb (String.eqb (id task) i)) (tasks st)
    /\ (forall task,
           In task (tasks st) -> String.eqb (id task) i = false ->
           In task (tasks (deleteTask i st)))
    /\ deleteTask i (deleteTask i st) = deleteTask i st.
Proof.
  intros i st; unfold absent, deleteTask, set_tasks; simpl.
  split; [|split; [|split]].
  - intros task Hin; apply filter_In in Hin; destruct Hin as [_ H].
    apply negb_true_iff in H; exact H.
  - reflexivity.
  - intros task Hin Hid; apply filter_In; split; [exact Hin|].
    rewrite Hid; reflexivity.
  - f_equal.
    apply (filter_untouched (fun task => String.eqb (id task) i)).
    intros task Hin; apply filter_In in Hin; destruct Hin as [_ H].
    apply negb_true_iff in H; exact H.
Qed.

Lemma deleteTask_removes_exactly_witness :
  let st := addTask "t1" t0 (form life) (addTask "t2" t0 (form study) oneTask) in
  map id (tasks st) = ["t1"; "t2"; "t1"]
  /\ map id (tasks (deleteTask "t1" st)) = ["t2"]
  /\ absent "t1" (deleteTask "t1" st).
Proof.
  intros st; split; [reflexivity | split; [reflexivity|]].
  exact (proj1 (deleteTask_removes_exactly "t1" st)).
Defined.

(** X11.  A decrement undoes an increment: when no counter of the registry
    is negative, [incrementTomato] followed by [decrementTomato] on the same
    identifier gives back every counter (and every identifier).  The other
    order does not: at a counter of 0 the decrement does nothing and the
    increment then leaves 1. *)
Theorem increment_then_decrement :
  forall (i n1 n2 : string) (st : TaskState),
    counters_nonneg st ->
    map (fun task => (id task, completedTomatoes task))
        (tasks (decrementTomato i n2 (incrementTomato i n1 st)))
    = map (fun task => (id task, completedTomatoes task)) (tasks st).
Proof.
  intros i n1 n2 st Hst; unfold decrementTomato, incrementTomato, set_tasks;
    simpl.
  rewrite !map_map; apply map_ext_in; intros task Hin.
  unfold counters_nonneg in Hst; rewrite Forall_forall in Hst.
  specialize (Hst task Hin).
  destruct (String.eqb (id task) i) eqn:Hid; simpl; rewrite Hid; simpl.
  - assert (Hpos : (0 <? completedTomatoes task + 1) = true)
      by (apply Z.ltb_lt; lia).
    rewrite Hpos; simpl; f_equal; lia.
  - reflexivity.
Qed.

Lemma increment_then_decrement_witness :
  map completedTomatoes
      (tasks (decrementTomato "t1" t0 (incrementTomato "t1" t0 oneTask)))
  = [0]
  /\ map completedTomatoes
         (tasks (incrementTomato "t1" t0 (decrementTomato "t1" t0 oneTask)))
     = [1].
Proof.
  split; [|reflexivity].
  pose proof (increment_then_decrement "t1" t0 t0 oneTask
                ltac:(repeat constructor; simpl; lia)) as H.
  apply (f_equal (map snd)) in H; rewrite !map_map in H; exact H.
Defined.

Lemma statuses_partition (l : list Task) :
  Z.of_nat (List.length l)
  = count (fun task => status_eqb (status task) completed) l
    + count (fun task => status_eqb (status task) in_progress) l
    + count (fun task => status_eqb (status task) todo) l
    + count (fun task => status_eqb (status task) cancelled) l.
Proof.
  unfold count; induction l as [|task l IH]; [reflexivity|].
  cbn [filter]; destruct (status task); cbn [status_eqb List.length]; lia.
Qed.

(** X12.  The statistics of the tasks add up: the completed, in-progress
    and to-do counts of [getTaskStats], with the number of cancelled tasks,
    make the total; the completion rate lies between 0 and 100, it is 0
    when no task is completed (and so when there is no task) and 100 when
    there are tasks and all are completed; and today's total is at most the
    total. *)
Theorem getTaskStats_adds_up :
  forall (today : string) (st : TaskState),
    let stats := getTaskStats st in
    totalTasks stats
    = completedTasks stats + inProgressTasks stats + todoTasks stats
      + Z.of_nat (List.length (getTasksByStatus cancelled st))
    /\ (0 <= completionRate stats <= 100)%Q
    /\ (completedTasks stats = 0 -> (completionRate stats == 0)%Q)
    /\ (0 < totalTasks stats ->
        completedTasks stats = totalTasks stats ->
        (completionRate stats == 100)%Q)
    /\ totalTasks (getTodayStats today st) <= totalTasks stats.
Proof.
  intros today st stats; subst stats.
  unfold getTaskStats, getTodayStats, getTasksByStatus, statsOf;
    cbn [totalTasks completedTasks inProgressTasks todoTasks completionRate].
  split; [apply statuses_partition|].
  assert (Hb : 0 <= count (fun task => status_eqb (status task) completed)
                          (tasks st)
               <= Z.of_nat (List.length (tasks st))).
  { unfold count; split; [lia | apply inj_le, filter_length_le]. }
  set (c := count _ (tasks st)) in *.
  split; [|split; [|split]].
  - destruct (Z.of_nat (List.length (tasks st))) as [|p|p] eqn:Hp; [| |lia].
    + split; discriminate.
    + change (0 <? Z.pos p) with true.
      unfold JS.div, Qle, Qdiv, Qmult, Qinv, inject_Z; cbn [Qnum Qden];
        split; lia.
  - intros Hc; rewrite Hc.
    destruct (Z.of_nat (List.length (tasks st))) as [|p|p]; reflexivity.
  - intros Hpos Hall; rewrite Hall.
    destruct (Z.of_nat (List.length (tasks st))) as [|p|p]; try lia.
    change (0 <? Z.pos p) with true.
    unfold JS.div, Qeq, Qdiv, Qmult, Qinv, inject_Z; cbn [Qnum Qden]; lia.
  - apply inj_le, filter_length_le.
Qed.

Lemma getTaskStats_adds_up_witness :
  (completionRate (getTaskStats oneTask) == 0)%Q
  /\ (completionRate
        (getTaskStats (toggleTaskStatus "t1" t0 (toggleTaskStatus "t1" t0 oneTask)))
      == 100)%Q.
Proof.
  split.
  - apply (proj1 (proj2 (proj2 (getTaskStats_adds_up t0 oneTask)))).
    reflexivity.
  - apply (proj1 (proj2 (proj2 (proj2
             (getTaskStats_adds_up
                t0 (toggleTaskStatus "t1" t0 (toggleTaskStatus "t1" t0 oneTask)))))));
      reflexivity.
Defined.

Lemma untouched_at (hit : Task -> bool) (f : Task -> Task) (l : list Task)
      (k : nat) (task : Task) :
  nth_error l k = Some task ->
  hit task = false ->
  nth_error (map (fun x => if hit x then f x else x) l) k = Some task.
Proof.
  intros Hk Hhit; rewrite nth_error_map, Hk; simpl; rewrite Hhit; reflexivity.
Qed.

(** X13.  An action on an identifier touches no other task: [updateTask],
    [toggleTaskStatus], [incrementTomato] and [decrementTomato] on [i] leave
    every task whose identifier is not [i] as it was, at its place, and keep
    the number of tasks. *)
Theorem actions_leave_other_tasks :
  forall (i now : string) (updates : PartialTask) (st : TaskState) (k : nat)
         (task : Task),
    nth_error (tasks st) k = Some task ->
    String.eqb (id task) i = false ->
    (nth_error (tasks (updateTask i updates now st)) k = Some task
     /\ List.length (tasks (updateTask i updates now st))
        = List.length (tasks st))
    /\ (nth_error (tasks (toggleTaskStatus i now st)) k = Some task
        /\ List.length (tasks (toggleTaskStatus i now st))
           = List.length (tasks st))
    /\ (nth_error (tasks (incrementTomato i now st)) k = Some task
        /\ List.length (tasks (incrementTomato i now st))
           = List.length (tasks st))
    /\ (nth_error (tasks (decrementTomato i now st)) k = Some task
        /\ List.length (tasks (decrementTomato i now st))
           = List.length (tasks st)).
Proof.
  intros i now updates st k task Hk Hid.
  unfold updateTask, toggleTaskStatus, incrementTomato, decrementTomato,
    set_tasks; simpl.
  repeat split; try apply length_map.
  - apply (untouched_at (fun x => String.eqb (id x) i)); assumption.
  - apply (untouched_at (fun x => String.eqb (id x) i)); assumption.
  - apply (untouched_at (fun x => String.eqb (id x) i)); assumption.
  - apply (untouched_at
             (fun x => String.eqb (id x) i && (0 <? completedTomatoes x)));
      [assumption | rewrite Hid; reflexivity].
Qed.

Lemma actions_leave_other_tasks_witness :
  nth_error (tasks (incrementTomato "t2" t0 oneTask)) 0
  = nth_error (tasks oneTask) 0
  /\ nth_error (tasks (updateTask "t2" negativePatch t0 oneTask)) 0
     = nth_error (tasks oneTask) 0.
Proof.
  destruct (actions_leave_other_tasks
              "t2" t0 negativePatch oneTask 0 (newTask "t1" t0 (form work))
              eq_refl eq_refl) as [[Hu _] [_ [[Hi _] _]]].
  split; [exact Hi | exact Hu].
Defined.

Lemma incrementTomato_at (i now : string) (st : TaskState) (k : nat)
      (task : Task) :
  nth_error (tasks st) k = Some task ->
  id task = i ->
  nth_error (tasks (incrementTomato i now st)) k
  = Some (with_completedTomatoes (completedTomatoes task + 1) now task).
Proof.
  intros Hk Hid; unfold incrementTomato, set_tasks; simpl.
  rewrite nth_error_map, Hk; simpl.
  rewrite Hid, String.eqb_refl; reflexivity.
Qed.

(** X14.  The registry does not clamp the counter: [n] calls of
    [incrementTomato] on the identifier of a task add [n] to its
    [completedTomatoes], beyond [plannedTomatoes] if [n] is large enough,
    and change neither [plannedTomatoes] nor the status of the task. *)
Theorem incrementTomato_repeated :
  forall (n : nat) (i now : string) (st : TaskState) (k : nat) (task : Task),
    nth_error (tasks st) k = Some task ->
    id task = i ->
    exists task',
      nth_error (tasks (Nat.iter n (incrementTomato i now) st)) k = Some task'
      /\ id task' = i
      /\ completedTomatoes task' = completedTomatoes task + Z.of_nat n
      /\ plannedTomatoes task' = plannedTomatoes task
      /\ status task' = status task.
Proof.
  induction n as [|n IH]; intros i now st k task Hk Hid.
  - exists task; simpl; repeat split; try assumption; lia.
  - destruct (IH i now st k task Hk Hid) as [t1 [H1 [Hi [Hc [Hp Hs]]]]].
    cbn [Nat.iter].
    eexists; split; [apply incrementTomato_at; eassumption|]; simpl.
    repeat split; try assumption; lia.
Qed.

Lemma incrementTomato_repeated_witness :
  exists task',
    nth_error (tasks (Nat.iter 3 (incrementTomato "t1" t0) oneTask)) 0
    = Some task'
    /\ plannedTomatoes task' = 2
    /\ completedTomatoes task' = 3
    /\ status task' = todo.
Proof.
  destruct (incrementTomato_repeated
              3 "t1" t0 oneTask 0 (newTask "t1" t0 (form work))
              eq_refl eq_refl) as [task' [H1 [_ [H2 [H3 H4]]]]].
  exists task'; repeat split; assumption.
Defined.

End RegistryStore.

(** ** The aggregator as a whole *)

Section CategoryMaps.
Import StatsStore StatsMeasures.

Lemma category_eqb_eq (a b : Task.TaskCategory) :
  Task.category_eqb a b = true <-> a = b.
Proof. destruct a, b; simpl; split; congruence. Qed.

Lemma category_eqb_refl (a : Task.TaskCategory) : Task.category_eqb a a = true.
Proof. destruct a; reflexivity. Qed.

Lemma category_eqb_neq (a b : Task.TaskCategory) :
  Task.category_eqb a b = false <-> a <> b.
Proof. destruct a, b; simpl; split; congruence. Qed.

Lemma reduce_sum_app {A : Type} (f : A -> Z) (l1 l2 : list A) :
  JS.reduce_sum f (l1 ++ l2) = JS.reduce_sum f l1 + JS.reduce_sum f l2.
Proof.
  unfold JS.reduce_sum; rewrite fold_left_app.
  rewrite fold_left_sum_from; reflexivity.
Qed.

Lemma filter_none {A : Type} (f : A -> bool) (l : list A) :
  (forall x, In x l -> f x = false) -> filter f l = [].
Proof.
  induction l as [|x l IH]; intros H; simpl; [reflexivity|].
  rewrite (H x (or_introl eq_refl)); apply IH.
  intros y Hy; apply H; right; exact Hy.
Qed.

Lemma lookup_record_task_same (task : Task.Task) (m : list CategoryStats) :
  lookup (Task.category task) (record_task task m)
  = Some (count_task task
            (match lookup (Task.category task) m with
             | Some stats => stats
             | None => blank (Task.category task)
             end)).
Proof.
  unfold lookup; induction m as [|stats rest IH]; simpl.
  - rewrite category_eqb_refl; reflexivity.
  - destruct (Task.category_eqb (category stats) (Task.category task)) eqn:H;
      simpl; rewrite H; [reflexivity | exact IH].
Qed.

Lemma lookup_record_task_other (c : Task.TaskCategory) (task : Task.Task)
      (m : list CategoryStats) :
  Task.category task <> c ->
  lookup c (record_task task m) = lookup c m.
Proof.
  intros Hne; unfold lookup; induction m as [|stats rest IH]; simpl.
  - apply category_eqb_neq in Hne; rewrite Hne; reflexivity.
  - destruct (Task.category_eqb (category stats) (Task.category task)) eqn:H;
      simpl.
    + apply category_eqb_eq in H.
      assert (Hc : Task.category_eqb (category stats) c = false)
        by (apply category_eqb_neq; congruence).
      rewrite Hc; reflexivity.
    + destruct (Task.category_eqb (category stats) c); [reflexivity | exact IH].
Qed.

Lemma keys_record_task (task : Task.Task) (m : list CategoryStats) :
  map category (record_task task m)
  = if existsb (fun stats => Task.category_eqb (category stats)
                                               (Task.category task)) m
    then map category m
    else map category m ++ [Task.category task].
Proof.
  induction m as [|stats rest IH]; simpl; [reflexivity|].
  destruct (Task.category_eqb (category stats) (Task.category task)); simpl;
    [reflexivity|].
  rewrite IH; destruct (existsb _ rest); reflexivity.
Qed.

Lemma NoDup_snoc {A : Type} (l : list A) (x : A) :
  NoDup l -> ~ In x l -> NoDup (l ++ [x]).
Proof.
  intros Hl Hx; induction Hl as [|y l Hy Hl IH]; simpl.
  - constructor; [intros [] | constructor].
  - constructor.
    + rewrite in_app_iff; intros [H|[H|[]]]; [contradiction|].
      subst; apply Hx; left; reflexivity.
    + apply IH; intros H; apply Hx; right; exact H.
Qed.

Lemma NoDup_record_task (task : Task.Task) (m : list CategoryStats) :
  NoDup (map category m) -> NoDup (map category (record_task task m)).
Proof.
  intros H; rewrite keys_record_task.
  destruct (existsb _ m) eqn:He; [exact H|].
  apply NoDup_snoc; [exact H|].
  intros Hin; apply in_map_iff in Hin; destruct Hin as [stats [Hc Hs]].
  assert (Ht : existsb (fun stats => Task.category_eqb (category stats)
                                                       (Task.category task)) m
               = true).
  { apply existsb_exists; exists stats; split; [exact Hs|].
    apply category_eqb_eq; exact Hc. }
  congruence.
Qed.

Lemma In_lookup (m : list CategoryStats) (stats : CategoryStats) :
  NoDup (map category m) -> In stats m ->
  lookup (category stats) m = Some stats.
Proof.
  unfold lookup; induction m as [|s rest IH]; intros Hnd Hin; [destruct Hin|].
  simpl in *; inversion Hnd as [|? ? Hnot Hrest]; subst.
  destruct Hin as [->|Hin].
  - rewrite category_eqb_refl; reflexivity.
  - destruct (Task.category_eqb (category s) (category stats)) eqn:H.
    + apply category_eqb_eq in H; exfalso; apply Hnot.
      rewrite H; apply in_map; exact Hin.
    + apply IH; assumption.
Qed.

Lemma lookup_In (c : Task.TaskCategory) (m : list CategoryStats)
      (stats : CategoryStats) :
  lookup c m = Some stats -> In stats m /\ category stats = c.
Proof.
  unfold lookup; intros H; apply find_some in H; destruct H as [Hin Hc].
  split; [exact Hin | apply category_eqb_eq; exact Hc].
Qed.

Lemma inCategory_snoc (c : Task.TaskCategory) (l : list Task.Task)
      (task : Task.Task) :
  inCategory c (l ++ [task])
  = inCategory c l
    ++ (if Task.category_eqb (Task.category task) c then [task] else []).
Proof. unfold inCategory; rewrite filter_app; reflexivity. Qed.

(** What the first pass of [calculateDailyStats] has recorded in the entry
    [stats] of the category [c] once it has gone through the tasks [l]. *)
Lemma recorded_counts (l : list Task.Task) :
  let m := fold_left (fun m task => record_task task m) l [] in
  NoDup (map category m)
  /\ forall c,
       match lookup c m with
       | None => inCategory c l = []
       | Some stats =>
           inCategory c l <> []
           /\ taskCount stats = len (inCategory c l)
           /\ tomatoCount stats
              = JS.reduce_sum Task.completedTomatoes (inCategory c l)
           /\ (completionRate stats
               == inject_Z (len (filter task_completed (inCategory c l))))%Q
       end.
Proof.
  induction l as [|task l IH] using rev_ind.
  - simpl; split; [constructor | intros c; reflexivity].
  - cbv zeta in *; rewrite fold_left_app; cbn [fold_left].
    set (m := fold_left (fun m task => record_task task m) l []) in *.
    destruct IH as [Hnd IH].
    split; [apply NoDup_record_task; exact Hnd|].
    intros c; rewrite inCategory_snoc.
    destruct (Task.category_eqb (Task.category task) c) eqn:Hc.
    + apply category_eqb_eq in Hc; subst c.
      rewrite lookup_record_task_same.
      specialize (IH (Task.category task)).
      split; [destruct (inCategory _ l); discriminate|].
      rewrite filter_app, reduce_sum_app.
      unfold len in *; rewrite !length_app.
      destruct (lookup (Task.category task) m) as [old|].
      * destruct IH as [_ [Ht [Hm Hr]]].
        cbn [count_task taskCount tomatoCount completionRate filter
             List.length].
        rewrite Ht, Hm.
        split; [lia | split; [unfold JS.reduce_sum; simpl; lia|]].
        destruct (task_completed task); cbn [List.length].
        -- rewrite Hr, Nat2Z.inj_add, inject_Z_plus; reflexivity.
        -- rewrite Hr, Nat.add_0_r; reflexivity.
      * rewrite IH.
        cbn [count_task blank taskCount tomatoCount completionRate filter
             List.length app].
        split; [reflexivity | split; [unfold JS.reduce_sum; simpl; lia|]].
        destruct (task_completed task); reflexivity.
    + apply category_eqb_neq in Hc.
      rewrite lookup_record_task_other by exact Hc.
      rewrite app_nil_r; apply IH.
Qed.

End CategoryMaps.

Section DailyAggregate.
Import StatsStore StatsMeasures.

(** X15.  A day without activity has an aggregate of zeros, not a missing
    one: when no task is scheduled on the day and no completed focus session
    started on it, [calculateDailyStats] returns the day with no completed
    task, no tomato, no focus time and no category. *)
Theorem calculateDailyStats_empty_day :
  forall (d : string) (tasks : list Task.Task)
         (sessions : list Pomodoro.PomodoroSession),
    (forall task, In task tasks ->
                  String.eqb (Task.scheduledDate task) d = false) ->
    (forall session, In session sessions ->
                     JS.startsWith (Pomodoro.startTime session) d
                     && completed_focus session = false) ->
    let stats := calculateDailyStats d tasks sessions in
    date stats = d
    /\ completedTasks stats = 0
    /\ completedTomatoes stats = 0
    /\ (dailyFocusTime stats == 0)%Q
    /\ categories stats = [].
Proof.
  intros d tasks sessions Ht Hs stats; subst stats.
  unfold calculateDailyStats, daySessionsOf.
  rewrite (filter_none _ tasks Ht), (filter_none _ sessions Hs).
  repeat split.
Qed.

Lemma calculateDailyStats_empty_day_witness :
  let stats := calculateDailyStats "2024-01-02" TaskScenario.eightTasks
                                   [StatsScenario.ninetySeconds] in
  completedTomatoes stats = 0 /\ categories stats = [].
Proof.
  intros stats.
  destruct (calculateDailyStats_empty_day
              "2024-01-02" TaskScenario.eightTasks
              [StatsScenario.ninetySeconds]) as [_ [_ [H1 [_ H2]]]].
  - intros task Hin; simpl in Hin.
    repeat (destruct Hin as [<-|Hin]; [reflexivity|]); destruct Hin.
  - intros session [<-|[]]; reflexivity.
  - split; assumption.
Defined.

(** X16.  The breakdown by category counts the tasks of the day: an entry
    of the categories of [calculateDailyStats] counts at least one task, as
    many as the tasks of the day have its category; its tomatoes are the
    [completedTomatoes] of these tasks added up; its completion rate lies
    between 0 and 100, is 0 when none of these tasks is completed and 100
    when all of them are. *)
Theorem daily_category_entry :
  forall (d : string) (tasks : list Task.Task)
         (sessions : list Pomodoro.PomodoroSession) (stats : CategoryStats),
    In stats (categories (calculateDailyStats d tasks sessions)) ->
    let mine := inCategory (category stats) (dayTasksOf d tasks) in
    0 < taskCount stats
    /\ taskCount stats = len mine
    /\ tomatoCount stats = JS.reduce_sum Task.completedTomatoes mine
    /\ (0 <= completionRate stats <= 100)%Q
    /\ (filter task_completed mine = [] -> (completionRate stats == 0)%Q)
    /\ (filter task_completed mine = mine -> (completionRate stats == 100)%Q).
Proof.
  intros d tasks sessions stats Hin mine; subst mine.
  unfold calculateDailyStats in Hin; cbn [categories] in Hin.
  fold (dayTasksOf d tasks) in Hin.
  apply in_map_iff in Hin; destruct Hin as [raw [<- Hraw]].
  destruct (recorded_counts (dayTasksOf d tasks)) as [Hnd Hall].
  cbv zeta in Hnd, Hall.
  specialize (Hall (category raw)).
  rewrite (In_lookup _ raw Hnd Hraw) in Hall.
  destruct Hall as [Hne [Ht [Hm Hr]]].
  cbn [finish_category category taskCount tomatoCount completionRate].
  set (mine := inCategory (category raw) (dayTasksOf d tasks)) in *.
  assert (Hpos : 0 < len mine).
  { unfold len; destruct mine; [contradiction | simpl; lia]. }
  assert (Hdone : 0 <= len (filter task_completed mine) <= len mine).
  { unfold len; split; [lia | apply inj_le, filter_length_le]. }
  rewrite Ht.
  split; [exact Hpos | split; [reflexivity | split; [exact Hm|]]].
  assert (Hlt : (0 <? len mine) = true) by (apply Z.ltb_lt; exact Hpos).
  rewrite Hlt; unfold JS.div; rewrite Hr.
  split; [|split].
  - set (done := len (filter task_completed mine)) in *.
    destruct (len mine) as [|p|p]; try lia.
    unfold Qle, Qdiv, Qmult, Qinv, inject_Z; cbn [Qnum Qden]; split; lia.
  - intros ->.
    destruct (len mine) as [|p|p]; try lia; reflexivity.
  - intros ->.
    destruct (len mine) as [|p|p]; try lia.
    unfold Qeq, Qdiv, Qmult, Qinv, inject_Z; cbn [Qnum Qden]; lia.
Qed.

Lemma daily_category_entry_witness :
  let stats := calculateDailyStats "2024-01-01" TaskScenario.eightTasks [] in
  exists entry,
    nth_error (categories stats) 1 = Some entry
    /\ category entry = Task.study
    /\ taskCount entry = 2
    /\ (completionRate entry == 0)%Q.
Proof.
  intros stats.
  eexists; split; [reflexivity|].
  split; [reflexivity | split; [reflexivity|]].
  refine (proj1 (proj2 (proj2 (proj2 (proj2
            (daily_category_entry
               "2024-01-01" TaskScenario.eightTasks [] _
               (or_intror (or_introl eq_refl))))))) _).
  reflexivity.
Defined.

(** X17.  The breakdown has one entry per category of the day: the entries
    of the categories of [calculateDailyStats] bear distinct categories,
    and every task scheduled on the day has the entry of its category. *)
Theorem daily_categories_cover :
  forall (d : string) (tasks : list Task.Task)
         (sessions : list Pomodoro.PomodoroSession),
    NoDup (map category (categories (calculateDailyStats d tasks sessions)))
    /\ forall task,
         In task tasks ->
         Task.scheduledDate task = d ->
         exists stats,
           In stats (categories (calculateDailyStats d tasks sessions))
           /\ category stats = Task.category task.
Proof.
  intros d tasks sessions.
  unfold calculateDailyStats; cbn [categories].
  fold (dayTasksOf d tasks).
  destruct (recorded_counts (dayTasksOf d tasks)) as [Hnd Hall].
  cbv zeta in Hnd, Hall.
  split.
  - rewrite map_map; cbn [finish_category category]; exact Hnd.
  - intros task Hin Hd.
    specialize (Hall (Task.category task)).
    destruct (lookup (Task.category task) _) as [raw|] eqn:Hl.
    + apply lookup_In in Hl; destruct Hl as [Hraw Hc].
      exists (finish_category (dayTasksOf d tasks)
                              (daySessionsOf d sessions) raw).
      split; [apply in_map; exact Hraw | exact Hc].
    + exfalso.
      assert (Hmine : In task (inCategory (Task.category task)
                                          (dayTasksOf d tasks))).
      { unfold inCategory, dayTasksOf; apply filter_In; split.
        - apply filter_In; split; [exact Hin|].
          rewrite Hd; apply String.eqb_refl.
        - apply category_eqb_refl. }
      rewrite Hall in Hmine; destruct Hmine.
Qed.

Lemma daily_categories_cover_witness :
  map category
      (categories (calculateDailyStats "2024-01-01" TaskScenario.eightTasks []))
  = [Task.work; Task.study; Task.life; Task.other]
  /\ exists stats,
       In stats (categories (calculateDailyStats
                               "2024-01-01" TaskScenario.eightTasks []))
       /\ category stats = Task.life.
Proof.
  split; [reflexivity|].
  destruct (daily_categories_cover "2024-01-01" TaskScenario.eightTasks [])
    as [_ H].
  apply (H (TaskStore.newTask "a5" TaskScenario.t0
                              (TaskScenario.form Task.life))).
  - simpl; tauto.
  - reflexivity.
Defined.

End DailyAggregate.

Section OverallAggregate.
Import StatsStore StatsMeasures.

Lemma overall_fields (tasks : list Task.Task)
      (sessions : list Pomodoro.PomodoroSession) :
  let completedSessions := filter completed_focus sessions in
  let days :=
    len (nodup string_dec
               (map (fun session => JS.split_T_0 (Pomodoro.startTime session))
                    completedSessions)) in
  let stats := calculateOverallStats tasks sessions in
  totalDays stats = days
  /\ totalTomatoes stats = len completedSessions
  /\ averageDailyTomatoes stats
     = (if 0 <? days
        then JS.div (inject_Z (len completedSessions)) (inject_Z days)
        else 0%Q)
  /\ favoriteCategory stats
     = fst (fold_left
              (fun '(favorite, maxCount) '(c, count) =>
                 if maxCount <? count
                 then (Task.category_name c, count)
                 else (favorite, maxCount))
              (fold_left (fun m task => count_category (Task.category task) m)
                         tasks [])
              (EmptyString, 0)).
Proof.
  cbv zeta; unfold calculateOverallStats.
  destruct (fold_left _ (fold_left _ tasks []) _) as [favorite maxCount].
  repeat split.
Qed.

Lemma nodup_length_le (l : list string) :
  (List.length (nodup string_dec l) <= List.length l)%nat.
Proof.
  induction l as [|x l IH]; simpl; [lia|].
  destruct (in_dec string_dec x l); simpl; lia.
Qed.

Lemma nodup_nonempty (l : list string) :
  l <> [] -> nodup string_dec l <> [].
Proof.
  destruct l as [|x l]; [contradiction|]; intros _ H.
  assert (Hin : In x (nodup string_dec (x :: l)))
    by (apply nodup_In; left; reflexivity).
  rewrite H in Hin; destruct Hin.
Qed.

(** X18.  The active days of the overall statistics are the distinct days
    of the completed focus sessions: they are at most as many as these
    sessions, which are at most the sessions; there is at least one as soon
    as there is one such session, and the average of tomatoes per active day
    is then at least 1; with no such session the days and the average
    are 0. *)
Theorem overall_days_and_average :
  forall (tasks : list Task.Task) (sessions : list Pomodoro.PomodoroSession),
    let stats := calculateOverallStats tasks sessions in
    0 <= totalDays stats <= totalTomatoes stats
    /\ totalTomatoes stats <= len sessions
    /\ (0 < totalTomatoes stats ->
        0 < totalDays stats /\ (1 <= averageDailyTomatoes stats)%Q)
    /\ (totalTomatoes stats = 0 ->
        totalDays stats = 0 /\ averageDailyTomatoes stats = 0%Q).
Proof.
  intros tasks sessions stats; subst stats.
  destruct (overall_fields tasks sessions) as [Hd [Ht [Ha _]]].
  cbv zeta in Hd, Ht, Ha; rewrite Hd, Ht, Ha; clear Hd Ht Ha.
  set (done := filter completed_focus sessions).
  set (days := map _ done).
  assert (Hle : len (nodup string_dec days) <= len done).
  { unfold len; apply inj_le.
    etransitivity; [apply nodup_length_le|].
    unfold days; rewrite length_map; lia. }
  assert (H0 : 0 <= len (nodup string_dec days)) by (unfold len; lia).
  split; [lia | split; [unfold len, done; apply inj_le, filter_length_le|]].
  split.
  - intros Hpos.
    assert (Hdays : 0 < len (nodup string_dec days)).
    { assert (Hne : nodup string_dec days <> []).
      { apply nodup_nonempty; unfold days.
        destruct done; [unfold len in Hpos; simpl in Hpos; lia | discriminate]. }
      unfold len; destruct (nodup string_dec days);
        [contradiction | simpl; lia]. }
    split; [exact Hdays|].
    apply Z.ltb_lt in Hdays as Hlt; rewrite Hlt.
    destruct (len (nodup string_dec days)) as [|p|p]; try lia.
    unfold JS.div, Qle, Qdiv, Qmult, Qinv, inject_Z; cbn [Qnum Qden]; lia.
  - intros Hz.
    assert (Hdz : len (nodup string_dec days) = 0) by lia.
    rewrite Hdz; split; reflexivity.
Qed.

Lemma overall_days_and_average_witness :
  let stats := calculateOverallStats [] [StatsScenario.ninetySeconds] in
  0 < totalDays stats /\ (1 <= averageDailyTomatoes stats)%Q.
Proof.
  intros stats.
  apply (proj1 (proj2 (proj2 (overall_days_and_average
                                [] [StatsScenario.ninetySeconds])))).
  reflexivity.
Defined.

Lemma countOf_count_category (c c' : Task.TaskCategory)
      (m : list (Task.TaskCategory * Z)) :
  countOf c (count_category c' m)
  = countOf c m + (if Task.category_eqb c' c then 1 else 0).
Proof.
  unfold countOf; induction m as [|[k n] rest IH]; simpl.
  - destruct (Task.category_eqb c' c); reflexivity.
  - destruct (Task.category_eqb k c') eqn:Hk; simpl.
    + apply category_eqb_eq in Hk; subst k.
      destruct (Task.category_eqb c' c); [reflexivity | lia].
    + destruct (Task.category_eqb k c) eqn:Hc; [|exact IH].
      apply category_eqb_eq in Hc; subst k.
      assert (Hsym : Task.category_eqb c' c = false)
        by (apply category_eqb_neq; apply category_eqb_neq in Hk; congruence).
      rewrite Hsym; lia.
Qed.

Lemma countOf_counts (c : Task.TaskCategory) (tasks : list Task.Task) :
  forall m,
    countOf c (fold_left (fun m task => count_category (Task.category task) m)
                         tasks m)
    = countOf c m + len (inCategory c tasks).
Proof.
  induction tasks as [|task tasks IH]; intros m; simpl.
  - unfold len; simpl; lia.
  - rewrite IH, countOf_count_category.
    unfold len; destruct (Task.category_eqb (Task.category task) c);
      cbn [List.length]; lia.
Qed.

Lemma keys_count_category (c : Task.TaskCategory)
      (m : list (Task.TaskCategory * Z)) :
  map fst (count_category c m)
  = if existsb (fun '(k, _) => Task.category_eqb k c) m
    then map fst m
    else map fst m ++ [c].
Proof.
  induction m as [|[k n] rest IH]; simpl; [reflexivity|].
  destruct (Task.category_eqb k c); simpl; [reflexivity|].
  rewrite IH; destruct (existsb _ rest); reflexivity.
Qed.

Lemma NoDup_counts (tasks : list Task.Task) :
  forall m,
    NoDup (map fst m) ->
    NoDup (map fst (fold_left
                      (fun m task => count_category (Task.category task) m)
                      tasks m)).
Proof.
  induction tasks as [|task tasks IH]; intros m Hm; simpl; [exact Hm|].
  apply IH; rewrite keys_count_category.
  destruct (existsb _ m) eqn:He; [exact Hm|].
  apply NoDup_snoc; [exact Hm|].
  intros Hin; apply in_map_iff in Hin; destruct Hin as [[k n] [Hk Hkn]].
  simpl in Hk; subst k.
  assert (Ht : existsb (fun '(k, _) =>
                          Task.category_eqb k (Task.category task)) m = true)
    by (apply existsb_exists; exists (Task.category task, n);
        split; [exact Hkn | apply category_eqb_refl]).
  congruence.
Qed.

Lemma In_countOf (m : list (Task.TaskCategory * Z)) (c : Task.TaskCategory)
      (n : Z) :
  NoDup (map fst m) -> In (c, n) m -> countOf c m = n.
Proof.
  unfold countOf; induction m as [|[k v] rest IH]; intros Hnd Hin;
    [destruct Hin|].
  simpl in *; inversion Hnd as [|? ? Hnot Hrest]; subst.
  destruct Hin as [Heq|Hin].
  - injection Heq as -> ->; rewrite category_eqb_refl; reflexivity.
  - destruct (Task.category_eqb k c) eqn:H.
    + apply category_eqb_eq in H; subst k; exfalso; apply Hnot.
      apply in_map_iff; exists (c, n); split; [reflexivity | exact Hin].
    + apply IH; assumption.
Qed.

(** The scan for the largest count: the count kept is at least the initial
    one and at least every count of the map, and the category kept is the
    initial one with the initial count, or a category of the map with the
    count kept. *)
Lemma scan_largest (m : list (Task.TaskCategory * Z)) :
  forall (favorite : string) (maxCount : Z),
    let result :=
      fold_left (fun '(favorite, maxCount) '(c, count) =>
                   if maxCount <? count
                   then (Task.category_name c, count)
                   else (favorite, maxCount))
                m (favorite, maxCount) in
    maxCount <= snd result
    /\ (forall c n, In (c, n) m -> n <= snd result)
    /\ (result = (favorite, maxCount)
        \/ exists c, In (c, snd result) m
                     /\ fst result = Task.category_name c).
Proof.
  induction m as [|[k v] rest IH]; intros favorite maxCount; simpl.
  - split; [lia | split; [intros c n [] | left; reflexivity]].
  - destruct (maxCount <? v) eqn:Hlt.
    + apply Z.ltb_lt in Hlt.
      destruct (IH (Task.category_name k) v) as [H1 [H2 H3]];
        cbv zeta in H1, H2, H3.
      split; [lia | split].
      * intros c n [Heq|Hin]; [injection Heq as -> ->; exact H1|].
        apply (H2 c n Hin).
      * right; destruct H3 as [H3|[c [Hc Hf]]].
        -- exists k; rewrite H3; simpl; split; [left; reflexivity|reflexivity].
        -- exists c; split; [right; exact Hc | exact Hf].
    + apply Z.ltb_ge in Hlt.
      destruct (IH favorite maxCount) as [H1 [H2 H3]];
        cbv zeta in H1, H2, H3.
      split; [exact H1 | split].
      * intros c n [Heq|Hin]; [injection Heq as -> ->; lia|].
        apply (H2 c n Hin).
      * destruct H3 as [H3|[c [Hc Hf]]]; [left; exact H3|].
        right; exists c; split; [right; exact Hc | exact Hf].
Qed.

(** X19.  The favourite category is a category with the most tasks: with no
    task it is the empty string; otherwise it is the name of the category
    of one of the tasks, and no category has more tasks than it has. *)
Theorem favoriteCategory_has_most_tasks :
  forall (tasks : list Task.Task) (sessions : list Pomodoro.PomodoroSession),
    let favorite := favoriteCategory (calculateOverallStats tasks sessions) in
    (tasks = [] -> favorite = EmptyString)
    /\ (tasks <> [] ->
        exists c,
          favorite = Task.category_name c
          /\ In c (map Task.category tasks)
          /\ forall c', len (inCategory c' tasks) <= len (inCategory c tasks)).
Proof.
  intros tasks sessions favorite; subst favorite.
  destruct (overall_fields tasks sessions) as [_ [_ [_ Hf]]].
  cbv zeta in Hf; rewrite Hf; clear Hf.
  split; [intros ->; reflexivity|].
  intros Hne.
  set (m := fold_left (fun m task => count_category (Task.category task) m)
                      tasks []).
  assert (Hcount : forall c, countOf c m = len (inCategory c tasks))
    by (intros c; unfold m; rewrite countOf_counts; reflexivity).
  assert (Hnd : NoDup (map fst m)) by (apply NoDup_counts; constructor).
  destruct (scan_largest m EmptyString 0) as [H1 [H2 H3]];
    cbv zeta in H1, H2, H3.
  set (result := fold_left _ m (EmptyString, 0)) in *.
  assert (Hentry : forall c, 0 < countOf c m -> In (c, countOf c m) m).
  { intros c; unfold countOf.
    destruct (find (fun '(c', _) => Task.category_eqb c' c) m)
      as [[k n]|] eqn:Hfind; [|lia].
    intros _; apply find_some in Hfind; destruct Hfind as [Hin Hk].
    apply category_eqb_eq in Hk; subst k; exact Hin. }
  assert (Hbig : 0 < snd result).
  { destruct tasks as [|task rest]; [contradiction|].
    assert (Hpos : 0 < countOf (Task.category task) m).
    { rewrite Hcount; unfold len, inCategory; simpl.
      rewrite category_eqb_refl; simpl; lia. }
    specialize (H2 _ _ (Hentry _ Hpos)); lia. }
  destruct H3 as [H3|[c [Hc Hname]]]; [rewrite H3 in Hbig; simpl in Hbig; lia|].
  exists c; split; [exact Hname|].
  pose proof (In_countOf m c (snd result) Hnd Hc) as Hmine.
  rewrite Hcount in Hmine.
  split.
  - assert (Hin : inCategory c tasks <> []).
    { intros Hnil; rewrite Hnil in Hmine; unfold len in Hmine;
        simpl in Hmine; lia. }
    destruct (inCategory c tasks) as [|task rest] eqn:Hcat; [contradiction|].
    assert (Ht : In task (inCategory c tasks))
      by (rewrite Hcat; left; reflexivity).
    unfold inCategory in Ht; apply filter_In in Ht; destruct Ht as [Ht Hk].
    apply category_eqb_eq in Hk; subst c.
    apply in_map; exact Ht.
  - intros c'; rewrite Hmine, <- Hcount.
    destruct (Z_lt_le_dec 0 (countOf c' m)) as [Hpos|Hzero]; [|lia].
    apply (H2 c'), Hentry, Hpos.
Qed.

Lemma favoriteCategory_has_most_tasks_witness :
  let tasks := TaskStore.newTask "b1" "t" (TaskScenario.form Task.life)
               :: TaskStore.newTask "b2" "t" (TaskScenario.form Task.study)
               :: TaskStore.newTask "b3" "t" (TaskScenario.form Task.study)
               :: nil in
  favoriteCategory (calculateOverallStats tasks []) = "study"
  /\ exists c,
       favoriteCategory (calculateOverallStats tasks []) = Task.category_name c
       /\ In c (map Task.category tasks)
       /\ forall c', len (inCategory c' tasks) <= len (inCategory c tasks).
Proof.
  intros tasks; split; [reflexivity|].
  apply (proj2 (favoriteCategory_has_most_tasks tasks [])).
  discriminate.
Defined.

End OverallAggregate.

Section StoredStatistics.
Import StatsStore StatsMeasures.

Lemma find_app_split {A : Type} (f : A -> bool) (l1 l2 : list A) :
  find f (l1 ++ l2)
  = match find f l1 with
    | Some x => Some x
    | None => find f l2
    end.
Proof.
  induction l1 as [|x l1 IH]; simpl; [reflexivity|].
  destruct (f x); [reflexivity | exact IH].
Qed.

Lemma find_filter_out {A : Type} (f g : A -> bool) (l : list A) :
  (forall x, f x = true -> g x = false) ->
  find f (filter g l) = None.
Proof.
  intros H; induction l as [|x l IH]; simpl; [reflexivity|].
  destruct (g x) eqn:Hg; [|exact IH].
  simpl; destruct (f x) eqn:Hf; [|exact IH].
  rewrite (H x Hf) in Hg; discriminate.
Qed.

Lemma find_filter_keep {A : Type} (f g : A -> bool) (l : list A) :
  (forall x, f x = true -> g x = true) ->
  find f (filter g l) = find f l.
Proof.
  intros H; induction l as [|x l IH]; simpl; [reflexivity|].
  destruct (g x) eqn:Hg; simpl.
  - destruct (f x); [reflexivity | exact IH].
  - destruct (f x) eqn:Hf; [|exact IH].
    rewrite (H x Hf) in Hg; discriminate.
Qed.

(** X20.  What [updateDailyStats] stores, [getDailyStats] gives back: after
    the update the statistics of the date are the ones given, they are the
    only entry of that date, and the statistics of every other date are what
    they were. *)
Theorem updateDailyStats_then_getDailyStats :
  forall (stats : DailyStats) (st : StatsState),
    getDailyStats (date stats) (updateDailyStats stats st) = Some stats
    /\ filter (fun s => String.eqb (date s) (date stats))
              (dailyStats (updateDailyStats stats st)) = [stats]
    /\ forall d,
         d <> date stats ->
         getDailyStats d (updateDailyStats stats st) = getDailyStats d st.
Proof.
  intros stats st; unfold getDailyStats, updateDailyStats; cbn [dailyStats].
  split; [|split].
  - rewrite find_app_split, find_filter_out.
    + simpl; rewrite String.eqb_refl; reflexivity.
    + intros x Hx; rewrite Hx; reflexivity.
  - rewrite filter_app; simpl; rewrite String.eqb_refl.
    rewrite (filter_none _ (filter _ (dailyStats st))); [reflexivity|].
    intros x Hx; apply filter_In in Hx; destruct Hx as [_ Hx].
    apply negb_true_iff in Hx; exact Hx.
  - intros d Hd.
    rewrite find_app_split, find_filter_keep.
    + destruct (find _ (dailyStats st)); [reflexivity|].
      simpl; destruct (String.eqb_spec (date stats) d) as [Heq|_];
        [congruence | reflexivity].
    + intros x Hx; apply String.eqb_eq in Hx; subst d.
      apply negb_true_iff, String.eqb_neq; exact Hd.
Qed.

Lemma updateDailyStats_then_getDailyStats_witness :
  let monday := calculateDailyStats "2024-01-01" TaskScenario.eightTasks [] in
  let tuesday := calculateDailyStats "2024-01-02" [] [] in
  let st := updateDailyStats monday {| dailyStats := []; overallStats := None |} in
  getDailyStats "2024-01-01" (updateDailyStats tuesday st) = Some monday.
Proof.
  intros monday tuesday st.
  rewrite (proj2 (proj2 (updateDailyStats_then_getDailyStats tuesday st)))
    by discriminate.
  exact (proj1 (updateDailyStats_then_getDailyStats
                  monday {| dailyStats := []; overallStats := None |})).
Defined.

Lemma countdown_succ (n : nat) : countdown (S n) = n :: countdown n.
Proof.
  unfold countdown; rewrite seq_S, rev_app_distr; reflexivity.
Qed.

Lemma countdown_nth (n : nat) :
  forall k, (k < n)%nat -> nth_error (countdown n) k = Some (n - 1 - k)%nat.
Proof.
  induction n as [|n IH]; intros k Hk; [lia|].
  rewrite countdown_succ; destruct k as [|k]; simpl.
  - f_equal; lia.
  - rewrite IH by lia; f_equal; lia.
Qed.

Lemma countdown_length (n : nat) : List.length (countdown n) = n.
Proof. unfold countdown; rewrite length_rev, length_seq; reflexivity. Qed.

(** X21.  The trend chart has one point per day of the period, the days
    without statistics included: it has 7 labels and 7 values for a week and
    30 for a month, from the oldest day to today, and the value of a day is
    the number of tomatoes of its stored statistics, or 0 when the store
    holds none for it. *)
Theorem getTrendChartData_zero_fills :
  forall (dateOf labelOf : nat -> string) (period : Period) (st : StatsState),
    let chart := getTrendChartData dateOf labelOf period st in
    List.length (labels chart) = daysOf period
    /\ exists series,
         datasets chart = [series]
         /\ List.length (data series) = daysOf period
         /\ forall k,
              (k < daysOf period)%nat ->
              nth_error (labels chart) k
              = Some (labelOf (daysOf period - 1 - k)%nat)
              /\ nth_error (data series) k
                 = Some (match getDailyStats
                                 (dateOf (daysOf period - 1 - k)%nat) st with
                         | Some dayStats => completedTomatoes dayStats
                         | None => 0
                         end).
Proof.
  intros dateOf labelOf period st chart; subst chart.
  unfold getTrendChartData; cbn [labels datasets].
  split; [rewrite length_map; apply countdown_length|].
  eexists; split; [reflexivity|]; cbn [data].
  split; [rewrite length_map; apply countdown_length|].
  intros k Hk; rewrite !nth_error_map, (countdown_nth _ k Hk); simpl.
  split; reflexivity.
Qed.

Lemma getTrendChartData_zero_fills_witness :
  let dateOf := fun i : nat => if Nat.eqb i 2 then "2024-01-01" else "other" in
  let monday := calculateDailyStats "2024-01-01" []
                                    [StatsScenario.ninetySeconds] in
  let st := {| dailyStats := [monday]; overallStats := None |} in
  exists series,
    datasets (getTrendChartData dateOf (fun _ => "") week st) = [series]
    /\ data series = [0; 0; 0; 0; 1; 0; 0].
Proof.
  intros dateOf monday st.
  destruct (getTrendChartData_zero_fills dateOf (fun _ => "") week st)
    as [_ [series [Hs _]]].
  exists series; split; [exact Hs|].
  injection Hs as <-; reflexivity.
Defined.

Lemma total_add_tomatoes (c : Task.TaskCategory) (n : Z)
      (m : list (Task.TaskCategory * Z)) :
  total (map snd (add_tomatoes c n m)) = total (map snd m) + n.
Proof.
  unfold total; induction m as [|[k v] rest IH]; simpl; [lia|].
  destruct (Task.category_eqb k c); simpl; lia.
Qed.

Lemma total_add_categories (cats : list CategoryStats) :
  forall m,
    total (map snd (fold_left
                      (fun m' cat =>
                         add_tomatoes (category cat) (tomatoCount cat) m')
                      cats m))
    = total (map snd m) + total (map tomatoCount cats).
Proof.
  induction cats as [|cat cats IH]; intros m; simpl; [lia|].
  rewrite IH, total_add_tomatoes; unfold total; simpl; lia.
Qed.

(** X22.  The category chart spreads the tomatoes of the period over the
    categories without losing any: it has as many labels as values, and its
    values add up to the tomatoes of all the categories of the statistics
    stored for the days of the period. *)
Theorem getCategoryChartData_adds_up :
  forall (dateOf : nat -> string) (period : Period) (st : StatsState),
    let chart := getCategoryChartData dateOf period st in
    exists series,
      datasets chart = [series]
      /\ List.length (labels chart) = List.length (data series)
      /\ total (data series)
         = total (map (fun i =>
                         match getDailyStats (dateOf i) st with
                         | Some dayStats =>
                             total (map tomatoCount (categories dayStats))
                         | None => 0
                         end)
                      (countdown (daysOf period))).
Proof.
  intros dateOf period st chart; subst chart.
  unfold getCategoryChartData; cbn [labels datasets].
  eexists; split; [reflexivity|]; cbn [data].
  split; [rewrite !length_map; reflexivity|].
  unfold getDailyStats.
  generalize (countdown (daysOf period)) as offsets.
  assert (H : forall offsets m,
             total (map snd
                        (fold_left
                           (fun m i =>
                              match find (fun s => String.eqb (date s) (dateOf i))
                                         (dailyStats st) with
                              | Some dayStats =>
                                  fold_left
                                    (fun m' cat =>
                                       add_tomatoes (category cat)
                                                    (tomatoCount cat) m')
                                    (categories dayStats) m
                              | None => m
                              end) offsets m))
             = total (map snd m)
               + total (map (fun i =>
                               match find (fun s => String.eqb (date s) (dateOf i))
                                          (dailyStats st) with
                               | Some dayStats =>
                                   total (map tomatoCount (categories dayStats))
                               | None => 0
                               end) offsets)).
  { induction offsets as [|i offsets IH]; intros m; simpl; [unfold total; simpl; lia|].
    rewrite IH.
    destruct (find _ (dailyStats st)) as [dayStats|].
    - rewrite total_add_categories; unfold total; simpl; lia.
    - unfold total; simpl; lia. }
  intros offsets; rewrite H; reflexivity.
Qed.

End StoredStatistics.

(** ** The task service *)

Section ServiceStorage.
Import Task.







(** X24.  After [TaskService.deleteTask] the identifier is gone and the
    others are found as before: the promise resolves, [getTaskById] on the
    new storage gives [null] for the identifier deleted, and for every other
    identifier what it gave on the storage of before. *)
Theorem service_deleteTask_then_getTaskById :
  forall (i : string) (stored : list Task),
    exists stored',
      TaskService.deleteTask i stored = TaskService.Resolved tt stored'
      /\ TaskService.getTaskById i stored' = None
      /\ forall j,
           j <> i ->
           TaskService.getTaskById j stored'
           = TaskService.getTaskById j stored.
Proof.
  intros i stored; unfold TaskService.deleteTask, TaskService.getTaskById.
  eexists; split; [reflexivity | split].
  - apply find_filter_out; intros x Hx; rewrite Hx; reflexivity.
  - intros j Hj; apply find_filter_keep.
    intros x Hx; apply String.eqb_eq in Hx.
    apply negb_true_iff, String.eqb_neq; congruence.
Qed.

Lemma service_deleteTask_then_getTaskById_witness :
  let stored := TaskStore.tasks
                  (TaskStore.addTask "t2" "t0" (TaskScenario.form study)
                                     TaskScenario.oneTask) in
  exists stored',
    TaskService.deleteTask "t1" stored = TaskService.Resolved tt stored'
    /\ TaskService.getTaskById "t1" stored' = None
    /\ TaskService.getTaskById "t2" stored'
       = TaskService.getTaskById "t2" stored.
Proof.
  intros stored.
  destruct (service_deleteTask_then_getTaskById "t1" stored)
    as [stored' [Hr [Hgone Hkept]]].
  exists stored'; split; [exact Hr | split; [exact Hgone|]].
  apply Hkept; discriminate.
Defined.

Lemma existsb_eqb_In (i : string) (ids : list string) :
  existsb (String.eqb i) ids = true <-> In i ids.
Proof.
  rewrite existsb_exists; split.
  - intros [x [Hin Hx]]; apply String.eqb_eq in Hx; subst; exact Hin.
  - intros Hin; exists i; split; [exact Hin | apply String.eqb_refl].
Qed.

(** X25.  [TaskService.batchUpdateTaskStatus] gives the status to the tasks
    named and to no other, and never overwrites a completion date: the
    promise resolves; a stored task whose identifier is not among the
    identifiers given is kept as it is; one whose identifier is among them
    has the status asked, keeps its identifier and its tomatoes, and keeps
    its [completedAt] when it had one, or when the status is not
    [completed]; it gets the instant of the call as [completedAt] only when
    the status is [completed] and it had none. *)
Theorem batchUpdateTaskStatus_per_task :
  forall (ids : list string) (s : TaskStatus) (now : string)
         (stored : list Task),
    exists stored',
      TaskService.batchUpdateTaskStatus ids s now stored
      = TaskService.Resolved tt stored'
      /\ List.length stored' = List.length stored
      /\ forall k task,
           nth_error stored k = Some task ->
           exists task',
             nth_error stored' k = Some task'
             /\ (~ In (id task) ids -> task' = task)
             /\ (In (id task) ids ->
                 status task' = s
                 /\ id task' = id task
                 /\ completedTomatoes task' = completedTomatoes task
                 /\ (JS.truthy (completedAt task) = true ->
                     completedAt task' = completedAt task)
                 /\ (s <> completed -> completedAt task' = completedAt task)
                 /\ (s = completed ->
                     JS.truthy (completedAt task) = false ->
                     completedAt task' = Some now)).
Proof.
  intros ids s now stored; unfold TaskService.batchUpdateTaskStatus.
  eexists; split; [reflexivity | split; [apply length_map|]].
  intros k task Hk; rewrite nth_error_map, Hk; simpl.
  eexists; split; [reflexivity|].
  destruct (existsb (String.eqb (id task)) ids) eqn:He.
  - apply existsb_eqb_In in He.
    split; [intros Hno; contradiction|].
    intros _; cbn [TaskService.withStatus status id completedTomatoes
                     completedAt].
    repeat split.
    + intros Ht; rewrite Ht, andb_false_r; reflexivity.
    + intros Hs.
      assert (Hf : status_eqb s completed = false)
        by (destruct s; try reflexivity; contradiction).
      rewrite Hf; reflexivity.
    + intros -> Ht; rewrite Ht; reflexivity.
  - split; [reflexivity|].
    intros Hin; apply existsb_eqb_In in Hin; congruence.
Qed.

Lemma batchUpdateTaskStatus_per_task_witness :
  let once := TaskService.withStatus completed "t1"
                (TaskStore.newTask "a" "t0" (TaskScenario.form work)) in
  let other := TaskStore.newTask "b" "t0" (TaskScenario.form life) in
  TaskService.batchUpdateTaskStatus ["a"] completed "t2" [once; other]
  = TaskService.Resolved tt [TaskService.withStatus completed "t2" once; other]
  /\ completedAt (TaskService.withStatus completed "t2" once) = Some "t1".
Proof.
  intros once other; split; [reflexivity|].
  destruct (batchUpdateTaskStatus_per_task ["a"] completed "t2" [once; other])
    as [stored' [Hr [_ Hall]]].
  injection Hr as <-.
  destruct (Hall 0%nat once eq_refl) as [task' [Hn [_ Hin]]].
  injection Hn as <-.
  destruct (Hin (or_introl eq_refl)) as [_ [_ [_ [Hkeep _]]]].
  exact (Hkeep eq_refl).
Defined.

End ServiceStorage.

(** ** Helpers *)

Section Percentages.

Lemma percentages_checked :
  forallb (fun t =>
             forallb (fun c => Helpers.nearest_percentage (Z.of_nat c)
                                                          (Z.of_nat t))
                     (seq 0 (S t)))
          (seq 1 200) = true.
Proof. vm_compute; reflexivity. Qed.

(** X26.  [calculatePercentage] gives a nearest integer of the percentage:
    it is 0 for a total of 0, and for a total from 1 to 200 and a completed
    count from 0 to the total, the result [r], computed on doubles as the
    code computes it, lies between 0 and 100 and is at most a half away from
    [100 * completed / total].  (At an exact half the double may fall on
    either side: 23 of 40 gives 57.) *)
Theorem calculatePercentage_nearest :
  forall completed total : Z,
    (total = 0 -> Helpers.calculatePercentage completed total = Some 0)
    /\ (0 < total <= 200 ->
        0 <= completed <= total ->
        exists r,
          Helpers.calculatePercentage completed total = Some r
          /\ 0 <= r <= 100
          /\ (2 * r - 1) * total <= 200 * completed <= (2 * r + 1) * total).
Proof.
  intros completed total; split; [intros ->; reflexivity|].
  intros Ht Hc.
  pose proof percentages_checked as Hall.
  rewrite forallb_forall in Hall.
  specialize (Hall (Z.to_nat total) ltac:(apply in_seq; lia)).
  rewrite forallb_forall in Hall.
  specialize (Hall (Z.to_nat completed) ltac:(apply in_seq; lia)).
  rewrite !Z2Nat.id in Hall by lia.
  unfold Helpers.nearest_percentage in Hall.
  destruct (Helpers.calculatePercentage completed total) as [r|];
    [|discriminate].
  apply andb_prop in Hall; destruct Hall as [Hall H4].
  apply andb_prop in Hall; destruct Hall as [Hall H3].
  apply andb_prop in Hall; destruct Hall as [H1 H2].
  apply Z.leb_le in H1, H2, H3, H4.
  exists r; repeat split; assumption.
Qed.

Lemma calculatePercentage_nearest_witness :
  Helpers.calculatePercentage 23 40 = Some 57
  /\ Helpers.calculatePercentage 1 8 = Some 13
  /\ Helpers.calculatePercentage 5 0 = Some 0
  /\ exists r,
       Helpers.calculatePercentage 2 3 = Some r
       /\ 0 <= r <= 100
       /\ (2 * r - 1) * 3 <= 200 * 2 <= (2 * r + 1) * 3.
Proof.
  split; [vm_compute; reflexivity|].
  split; [vm_compute; reflexivity|].
  split; [reflexivity|].
  apply (proj2 (calculatePercentage_nearest 2 3)); lia.
Defined.

End Percentages.

Section Durations.

Lemma padStart_two_digits (n : Z) :
  0 <= n < 100 ->
  JS.padStart 2 "0" (JS.toString n) = Helpers.twoDigits n.
Proof.
  intros Hn.
  assert (Hall : forallb (fun k => String.eqb
                                     (JS.padStart 2 "0" (JS.toString (Z.of_nat k)))
                                     (Helpers.twoDigits (Z.of_nat k)))
                         (seq 0 100) = true) by (vm_compute; reflexivity).
  rewrite forallb_forall in Hall.
  specialize (Hall (Z.to_nat n)).
  rewrite Z2Nat.id in Hall by lia.
  apply String.eqb_eq, Hall, in_seq; lia.
Qed.

(** X27.  [formatDuration] shows a time below a hundred minutes as
    [MM:SS]: for [0 <= seconds < 6000] the text is the two digits of the
    minutes, a colon and the two digits of the seconds left, which are below
    60, so that the time can be read back from the text. *)
Theorem formatDuration_minutes_seconds :
  forall seconds : Z,
    0 <= seconds < 6000 ->
    exists m s,
      Helpers.formatDuration seconds
      = String.append (Helpers.twoDigits m) (String ":" (Helpers.twoDigits s))
      /\ 0 <= m < 100
      /\ 0 <= s < 60
      /\ seconds = 60 * m + s
      /\ String.length (Helpers.formatDuration seconds) = 5%nat.
Proof.
  intros seconds Hs.
  exists (seconds / 60), (Z.rem seconds 60).
  assert (Hrem : Z.rem seconds 60 = seconds mod 60)
    by (apply Z.rem_mod_nonneg; lia).
  assert (Hm : 0 <= seconds / 60 < 100)
    by (split; [apply Z.div_pos; lia | apply Z.div_lt_upper_bound; lia]).
  assert (Hr : 0 <= seconds mod 60 < 60) by (apply Z.mod_pos_bound; lia).
  assert (Hf : Helpers.formatDuration seconds
               = String.append (Helpers.twoDigits (seconds / 60))
                   (String ":" (Helpers.twoDigits (Z.rem seconds 60)))).
  { unfold Helpers.formatDuration; cbv zeta.
    rewrite !padStart_two_digits by (rewrite ?Hrem; lia); reflexivity. }
  rewrite Hf, Hrem.
  repeat split; try lia.
  apply Z.div_mod; lia.
Qed.

Lemma formatDuration_minutes_seconds_witness :
  Helpers.formatDuration 1500 = "25:00"
  /\ Helpers.formatDuration 65 = "01:05"
  /\ String.length (Helpers.formatDuration 5999) = 5%nat.
Proof.
  split; [reflexivity | split; [reflexivity|]].
  destruct (formatDuration_minutes_seconds 5999 ltac:(lia))
    as [m [s [_ [_ [_ [_ H]]]]]].
  exact H.
Defined.

End Durations.
